(** * pathoMozhi: the training-loop orchestration core of [train/train.py]

    A shallow embedding of [main] and of its nested helper
    [get_grouped_params]: parameter grouping, checkpoint discovery and
    loading, the total-step computation and the epoch driver.

    Conventions of the embedding.
    - A Python [str] is the [string] of its code points; those of the
      parameter names and paths met here are below 256.
    - A Python [int] is a [Z]; a Python [float] is a binary64 value of
      [spec_float].
    - A Python [dict] keyed by strings is a [gmap string _].
    - A raised exception is a value of [exn]; code that prints or calls a
      collaborator runs in the monad [M], which records those events. *)

From Stdlib Require Import ZArith QArith Qround String Ascii.
From Stdlib Require Import DecimalString DecimalNat.
From Stdlib Require Import SpecFloat.
From stdpp Require Import gmap strings list fin_maps sorting.

Local Open Scope string_scope.
Local Open Scope list_scope.
Local Open Scope stdpp_scope.

(** ** Python strings *)

Module PyStr.

(** [s.startswith(pre)] *)
Definition startswith (s pre : string) : bool := String.prefix pre s.

(** [s.endswith(suf)]: some tail of [s] is [suf]. *)
Fixpoint endswith (s suf : string) : bool :=
  String.eqb s suf ||
  match s with
  | EmptyString => false
  | String _ t => endswith t suf
  end.

(** [sub in s]: [sub] starts at some position of [s]. *)
Fixpoint contains (sub s : string) : bool :=
  String.prefix sub s ||
  match s with
  | EmptyString => false
  | String _ t => contains sub t
  end.

Definition is_upper (c : ascii) : bool :=
  let n := nat_of_ascii c in (65 <=? n)%nat && (n <=? 90)%nat.

Definition lower_char (c : ascii) : ascii :=
  if is_upper c then ascii_of_nat (nat_of_ascii c + 32) else c.

(** [s.lower()] on ASCII text. *)
Fixpoint lower (s : string) : string :=
  match s with
  | EmptyString => EmptyString
  | String c t => String (lower_char c) (lower t)
  end.

(** Every character of [s] passes the test [f]. *)
Fixpoint all_chars (f : ascii -> bool) (s : string) : bool :=
  match s with
  | EmptyString => true
  | String c t => f c && all_chars f t
  end.

Definition differs_from (sep : ascii) (c : ascii) : bool :=
  negb (Ascii.eqb c sep).

(** [s.split(sep)] for a one-character separator: never empty. *)
Fixpoint split (sep : ascii) (s : string) : list string :=
  match s with
  | EmptyString => [EmptyString]
  | String c t =>
      if Ascii.eqb c sep then EmptyString :: split sep t
      else match split sep t with
           | h :: r => String c h :: r
           | [] => [String c EmptyString]
           end
  end.

(** [l[-1]] and [l[0]] on the result of a split. *)
Definition last_item (l : list string) : string := List.last l EmptyString.
Definition first_item (l : list string) : string := List.hd EmptyString l.

(** [s.replace(old, new)]: every non-overlapping occurrence of [old],
    scanning from the left.  [skip] counts the characters of an
    occurrence that was just replaced and is still to be dropped. *)
Fixpoint replace_from (old new : string) (skip : nat) (s : string) : string :=
  match s with
  | EmptyString => EmptyString
  | String c t =>
      match skip with
      | S k => replace_from old new k t
      | O =>
          if String.prefix old s
          then new +:+ replace_from old new (String.length old - 1) t
          else String c (replace_from old new 0 t)
      end
  end.

(** With an empty [old], [new] goes before every character and at the
    end. *)
Fixpoint interleave (new s : string) : string :=
  match s with
  | EmptyString => EmptyString
  | String c t => String c (new +:+ interleave new t)
  end.

Definition replace (old new s : string) : string :=
  match old with
  | EmptyString => new +:+ interleave new s
  | String _ _ => replace_from old new 0 s
  end.

(** [s[n:]] *)
Fixpoint drop (n : nat) (s : string) : string :=
  match n, s with
  | S k, String _ t => drop k t
  | _, _ => s
  end.

(** [s.removeprefix(pre)]: [pre] is dropped from a string that starts
    with it, any other string is returned as it is. *)
Definition removeprefix (pre s : string) : string :=
  if String.prefix pre s then drop (String.length pre) s else s.

End PyStr.

(** ** Python floats *)

Module PyFloat.

(** A [float] is an IEEE 754 binary64 value. *)
Definition prec : Z := 53.
Definition emax : Z := 1024.
Definition t : Set := spec_float.

(** [x * y], rounded to nearest even. *)
Definition mul (x y : t) : t := SFmul prec emax x y.

(** The float of an integer literal such as [5.0], and [0.0] and [0.5]. *)
Definition of_Z (z : Z) : t := binary_normalize prec emax z 0 false.
Definition zero : t := S754_zero false.
Definition half : t := binary_normalize prec emax 1 (-1) false.

End PyFloat.

(** ** Parameters and parameter groups *)

(** A tensor registered as a model parameter.  [pid] is the identity of the
    Python object, [exclude_from_optimizer] the optional attribute that the
    source reads with [getattr(p, "exclude_from_optimizer", False)]. *)
Record parameter := {
  pid : nat;
  ndim : nat;
  requires_grad : bool;
  exclude_from_optimizer : option bool
}.

Definition getattr_exclude (p : parameter) : bool :=
  default false (exclude_from_optimizer p).

(** One dictionary of the list returned by [get_grouped_params]. *)
Record param_group := {
  params : list parameter;
  weight_decay : PyFloat.t;
  lr : PyFloat.t
}.

(** [filter(lambda x: x[1].requires_grad and not getattr(...), named)] *)
Definition optimizable (x : string * parameter) : bool :=
  requires_grad x.2 && negb (getattr_exclude x.2).

Definition params_to_optimize (named : list (string * parameter))
  : list (string * parameter) :=
  List.filter optimizable named.

(** The three accumulators [decay, no_decay, gate] of the loop. *)
Record buckets := {
  decay : list parameter;
  no_decay : list parameter;
  gate : list parameter
}.

Definition empty_buckets : buckets :=
  {| decay := []; no_decay := []; gate := [] |}.

(** The body of [for n, p in named_params]. *)
Definition bucket_step (b : buckets) (x : string * parameter) : buckets :=
  let '(n, p) := x in
  if negb (requires_grad p) then b
  else if PyStr.endswith n "attn_gate" || PyStr.endswith n "ff_gate"
  then {| decay := decay b; no_decay := no_decay b; gate := gate b ++ [p] |}
  else if (ndim p =? 1)%nat || PyStr.endswith n ".bias"
          || PyStr.contains "norm" (PyStr.lower n)
  then {| decay := decay b; no_decay := no_decay b ++ [p]; gate := gate b |}
  else {| decay := decay b ++ [p]; no_decay := no_decay b; gate := gate b |}.

Definition fill_buckets (named : list (string * parameter)) : buckets :=
  fold_left bucket_step named empty_buckets.

(** The default of the keyword argument [gate_lr_mult]. *)
Definition gate_lr_mult_default : PyFloat.t := (PyFloat.of_Z 5).

Definition get_grouped_params (named : list (string * parameter))
    (base_lr wd : PyFloat.t) (gate_lr : option PyFloat.t) (gate_lr_mult : PyFloat.t)
  : list param_group :=
  let b := fill_buckets named in
  let lr_gate :=
    match gate_lr with
    | Some g => g
    | None => PyFloat.mul base_lr gate_lr_mult
    end in
  [ {| params := decay b; weight_decay := wd; lr := base_lr |};
    {| params := no_decay b; weight_decay := PyFloat.zero; lr := base_lr |};
    {| params := gate b; weight_decay := PyFloat.zero; lr := lr_gate |} ].

(** ** Exceptions, events and the monad of [main] *)

Inductive exn :=
| ValueError (msg : string)
| AttributeError (msg : string)
| UnboundLocalError (var : string)
| ZeroDivisionError (msg : string)
| RuntimeError (msg : string)
| IndexError (msg : string)
| FileNotFoundError (path : string).

(** What [main] does to the outside: lines printed and collaborators
    called, in order. *)
Inductive event :=
| Print (line : string)
| SetOfflineEnv
| InitDistributedDevice
| TorchManualSeed (s : Z)
| NpRandomSeed (s : Z)
| RandomSeed (s : Z)
| CreateModelAndTransforms
| ResizeTokenEmbeddings
| FreezeEmbeddings
| WandbInit
| ApplyActivationCheckpointing
| ModelTrain
| CreateFeatureLoader (epoch : Z)
| GetData (epoch : Z)
| SetEpoch (epoch : Z)
| TrainOneEpoch (epoch : Z)
| SaveCheckpoint (epoch : Z).

(** A computation: the events it produced and either the exception that
    stopped it or its value. *)
Definition M (A : Type) : Type := (list event * (exn + A))%type.

Definition ret {A} (a : A) : M A := ([], inr a).

Definition bind {A B} (m : M A) (k : A -> M B) : M B :=
  match m with
  | (tr, inl e) => (tr, inl e)
  | (tr, inr a) => let '(tr', r) := k a in (tr ++ tr', r)
  end.

Definition raise {A} (e : exn) : M A := ([], inl e).
Definition emit (ev : event) : M unit := ([ev], inr tt).
Definition print (line : string) : M unit := emit (Print line).
Definition lift {A} (r : exn + A) : M A := ([], r).

(** [if c: m] *)
Definition when (c : bool) (m : M unit) : M unit := if c then m else ret tt.

Definition trace {A} (m : M A) : list event := m.1.
Definition outcome {A} (m : M A) : exn + A := m.2.

Declare Scope py_scope.
Delimit Scope py_scope with py.
Notation "'do' x <- m ; k" := (bind m (fun x => k))
  (at level 10, x pattern, m at level 100, k at level 200) : py_scope.
Notation "m ;;; k" := (bind m (fun _ => k))
  (at level 100, k at level 200, right associativity) : py_scope.

(** ** Seeding (lines 38-41) *)

(** [torch.manual_seed(s)] takes a seed that fits 64 bits, signed or
    unsigned, and raises [RuntimeError] otherwise. *)
Definition torch_manual_seed (s : Z) : M unit :=
  if ((- 2 ^ 63 <=? s) && (s <=? 2 ^ 64 - 1))%Z then emit (TorchManualSeed s)
  else raise (RuntimeError "Overflow when unpacking long").

(** [np.random.seed(s)] takes a seed between 0 and [2**32 - 1]. *)
Definition np_random_seed (s : Z) : M unit :=
  if ((0 <=? s) && (s <=? 2 ^ 32 - 1))%Z then emit (NpRandomSeed s)
  else raise (ValueError "Seed must be between 0 and 2**32 - 1").

(** [random_seed(seed, rank)] seeds the three generators in turn with
    [seed + rank]; [random.seed], the last, takes any integer. *)
Definition random_seed (seed rank : Z) : M unit :=
  (torch_manual_seed (seed + rank) ;;;
   np_random_seed (seed + rank) ;;;
   emit (RandomSeed (seed + rank)))%py.

(** ** Integers and their decimal text *)

Module PyInt.

Definition is_digit (c : ascii) : bool :=
  let n := nat_of_ascii c in (48 <=? n)%nat && (n <=? 57)%nat.

Definition digit_value (c : ascii) : Z := Z.of_nat (nat_of_ascii c - 48).

(** The characters that [int] skips at both ends of a [str] whose code
    points are below 256: tab, line feed, vertical tab, form feed,
    carriage return, space, and the white space of Latin-1 (next line,
    no-break space).  The separators 28 to 31, which [str.strip] removes,
    are not among them. *)
Definition is_space (c : ascii) : bool :=
  let n := nat_of_ascii c in
  ((9 <=? n)%nat && (n <=? 13)%nat) || (n =? 32)%nat
  || (n =? 133)%nat || (n =? 160)%nat.

Fixpoint lstrip (s : string) : string :=
  match s with
  | EmptyString => EmptyString
  | String c t => if is_space c then lstrip t else s
  end.

Fixpoint rstrip (s : string) : string :=
  match s with
  | EmptyString => EmptyString
  | String c t =>
      match rstrip t with
      | EmptyString => if is_space c then EmptyString else String c EmptyString
      | t' => String c t'
      end
  end.

(** Decimal digits, a single underscore allowed between two digits.
    [after_digit] tells whether the previous character was a digit. *)
Fixpoint digits (acc : Z) (after_digit : bool) (s : string) : option Z :=
  match s with
  | EmptyString => if after_digit then Some acc else None
  | String c t =>
      if is_digit c then digits (10 * acc + digit_value c)%Z true t
      else if Ascii.eqb c "_"%char
           then if after_digit then digits acc false t else None
           else None
  end.

(** [int(s)] in base ten; [None] stands for the [ValueError].  The bound
    of 4300 digits that CPython puts on the text since 3.11 is left
    out: the texts read here are parts of file names. *)
Definition int (s : string) : option Z :=
  match rstrip (lstrip s) with
  | String "-"%char t => Z.opp <$> digits 0 false t
  | String "+"%char t => digits 0 false t
  | t => digits 0 false t
  end.

(** [str(n)] for a natural number and for any integer. *)
Definition str_of_nat (n : nat) : string :=
  NilEmpty.string_of_uint (Nat.to_uint n).

Definition str (z : Z) : string :=
  match z with
  | Zneg p => String "-"%char (str_of_nat (Pos.to_nat p))
  | _ => str_of_nat (Z.to_nat z)
  end.

(** [a // b] *)
Definition floordiv (a b : Z) : exn + Z :=
  if (b =? 0)%Z then inl (ZeroDivisionError "integer division or modulo by zero")
  else inr (a / b)%Z.

(** [range(lo, hi)] *)
Definition range (lo hi : Z) : list Z :=
  List.map (fun i => (lo + Z.of_nat i)%Z) (List.seq 0 (Z.to_nat (hi - lo))).

End PyInt.

(** ** Configuration and the outside world *)

(** The fields of the namespace [args] that the orchestration reads. *)
Module Args.
Record t := {
  run_name : string;
  resume_from_checkpoint : option string;
  batch_size : Z;
  seed : Z;
  learning_rate : PyFloat.t;
  lr_scheduler : string;
  gate_learning_rate : option PyFloat.t;
  warmup_steps : Z;
  weight_decay : PyFloat.t;
  gradient_checkpointing : bool;
  num_epochs : Z;
  offline : bool;
  train_num_samples : Z;
  new_tokens : list string;
  report_to_wandb : bool;
  save_checkpoints_to_wandb : bool;
  (* assigned from [world_info_from_env()] *)
  local_rank : Z;
  rank : Z;
  world_size : Z;
  (* [args.fsdp]: no parser argument declares it, so the namespace that
     [parse_args] returns has [None] here, the attribute being absent;
     [Some b] stands for a namespace on which code outside this file
     has set it *)
  fsdp : option bool
}.

Definition with_world_info (a : t) (lr r ws : Z) : t :=
  {| run_name := run_name a;
     resume_from_checkpoint := resume_from_checkpoint a;
     batch_size := batch_size a; seed := seed a;
     learning_rate := learning_rate a; lr_scheduler := lr_scheduler a;
     gate_learning_rate := gate_learning_rate a;
     warmup_steps := warmup_steps a; weight_decay := weight_decay a;
     gradient_checkpointing := gradient_checkpointing a;
     num_epochs := num_epochs a; offline := offline a;
     train_num_samples := train_num_samples a;
     new_tokens := new_tokens a;
     report_to_wandb := report_to_wandb a;
     save_checkpoints_to_wandb := save_checkpoints_to_wandb a;
     local_rank := lr; rank := r; world_size := ws;
     fsdp := fsdp a |}.

Definition with_resume (a : t) (path : option string) : t :=
  {| run_name := run_name a;
     resume_from_checkpoint := path;
     batch_size := batch_size a; seed := seed a;
     learning_rate := learning_rate a; lr_scheduler := lr_scheduler a;
     gate_learning_rate := gate_learning_rate a;
     warmup_steps := warmup_steps a; weight_decay := weight_decay a;
     gradient_checkpointing := gradient_checkpointing a;
     num_epochs := num_epochs a; offline := offline a;
     train_num_samples := train_num_samples a;
     new_tokens := new_tokens a;
     report_to_wandb := report_to_wandb a;
     save_checkpoints_to_wandb := save_checkpoints_to_wandb a;
     local_rank := local_rank a; rank := rank a;
     world_size := world_size a;
     fsdp := fsdp a |}.
End Args.

(** A tensor of a state dictionary: its shape and an opaque payload, a
    label of the values it holds. *)
Record tensor := { shape : list nat; payload : nat }.

(** [optimizer.state_dict()]: per-parameter accumulators (opaque) and the
    saved groups, whose parameters are indices. *)
Record saved_group := {
  sg_params : list nat;
  sg_weight_decay : PyFloat.t;
  sg_lr : PyFloat.t
}.

Record optimizer_state := {
  osd_state : gmap nat nat;
  osd_param_groups : list saved_group
}.

(** The record stored in [checkpoint_<epoch>.pt].  [model_state_dict]
    keeps the insertion order of the saved dictionary; the key
    ["optimizer_state_dict"] may be absent. *)
Record checkpoint := {
  model_state_dict : list (string * tensor);
  optimizer_state_dict : option optimizer_state;
  lr_scheduler_state_dict : nat;
  epoch : Z
}.

(** What the process finds outside: the launch environment, the file
    system and the model built by the model factory. *)
Record world := {
  world_info_from_env : Z * Z * Z;
  fs_exists : string -> bool;
  fs_glob : string -> list string;
  fs_checkpoint : string -> option checkpoint;
  embedding_located : bool;
  tokens_to_add : list string;
  model_state : gmap string tensor;
  ddp_named_parameters : list (string * parameter)
}.

(** ** Start-up checks *)

(** Lines 88-89. *)
Definition check_wandb_flags (a : Args.t) : M unit :=
  if Args.save_checkpoints_to_wandb a && negb (Args.report_to_wandb a)
  then raise (ValueError "save_checkpoints_to_wandb requires report_to_wandb")
  else ret tt.

(** ** Checkpoint discovery (lines 150-161) *)

Definition checkpoint_base_path : string :=
  "/mnt/bulk-mars/vidhya/visionLanguage/CHECKPOINT".

(** [os.path.join(a, b)] on POSIX paths. *)
Definition path_join (a b : string) : string :=
  if PyStr.startswith b "/" then b
  else if String.eqb a "" || PyStr.endswith a "/" then a +:+ b
  else a +:+ "/" +:+ b.

(** [lambda x: int(x.split("_")[-1].split(".")[0])] *)
Definition epoch_key (x : string) : option Z :=
  PyInt.int
    (PyStr.first_item
       (PyStr.split "."%char (PyStr.last_item (PyStr.split "_"%char x)))).

(** [sorted(l, key=...)]: a stable sort, on entries paired with their
    keys. *)
Fixpoint insert_by_key (x : Z * string) (l : list (Z * string))
  : list (Z * string) :=
  match l with
  | [] => [x]
  | y :: l' =>
      if (x.1 <=? y.1)%Z then x :: y :: l' else y :: insert_by_key x l'
  end.

Definition sort_by_key (l : list (Z * string)) : list (Z * string) :=
  foldr insert_by_key [] l.

(** The keys of all entries, or the first [ValueError] of [int]. *)
Fixpoint keyed (l : list string) : exn + list (Z * string) :=
  match l with
  | [] => inr []
  | x :: l' =>
      match epoch_key x with
      | None => inl (ValueError "invalid literal for int() with base 10")
      | Some k =>
          match keyed l' with
          | inl e => inl e
          | inr r => inr ((k, x) :: r)
          end
      end
  end.

(** [sorted(checkpoint_list, key=...)[-1]] for a non-empty list. *)
Definition latest_checkpoint (l : list string) : exn + string :=
  match keyed l with
  | inl e => inl e
  | inr kl => inr (List.last (List.map snd (sort_by_key kl)) "")
  end.

Local Open Scope py_scope.

(** The value of [args.resume_from_checkpoint] after discovery. *)
Definition discover (w : world) (a : Args.t) : M (option string) :=
  let checkpoint_dir := path_join checkpoint_base_path (Args.run_name a) in
  if fs_exists w checkpoint_dir
     && bool_decide (Args.resume_from_checkpoint a = None)
  then
    let checkpoint_list := fs_glob w (path_join checkpoint_dir "checkpoint_*.pt") in
    if (length checkpoint_list =? 0)%nat then
      print ("Found no checkpoints for run " +:+ Args.run_name a +:+ ".") ;;;
      ret None
    else
      do found <- lift (latest_checkpoint checkpoint_list);
      print ("Found checkpoint " +:+ found +:+ " for run "
             +:+ Args.run_name a +:+ ".") ;;;
      ret (Some found)
  else ret (Args.resume_from_checkpoint a).

(** ** Loading the checkpoint (lines 163-173) *)

(** [{k.replace("module.", ""): v for k, v in msd.items()}]: entries are
    inserted in order, a later entry overwrites an equal key. *)
Definition rename_key (k : string) : string := PyStr.replace "module." "" k.

(** The spec's wording of the same step: the distributed-wrapper prefix
    ["module."] is stripped from a key that starts with it. *)
Definition spec_rename_key (k : string) : string :=
  PyStr.removeprefix "module." k.

Definition rename_keys (msd : list (string * tensor)) : gmap string tensor :=
  foldl (fun m kv => <[rename_key kv.1 := kv.2]> m) ∅ msd.

(** [torch.load(path, map_location="cpu")] *)
Definition torch_load (w : world) (path : string) : M checkpoint :=
  match fs_checkpoint w path with
  | Some c => ret c
  | None => raise (FileNotFoundError path)
  end.

(** [model.load_state_dict(sd, False)] of [torch.nn.Module]: with
    [strict=False] keys of the model missing from [sd] and keys of [sd]
    unknown to the model are skipped; a key present on both sides with a
    different shape is still an error, collected while the parameters
    are visited and raised at the end. *)

(** The tensor that is compared with the parameter [t] and copied into
    it: the saved one, or its first element when [t] has no dimension
    and the saved tensor has one (how checkpoints of torch 0.3 are
    read).  [None] is the [IndexError] of [input_param[0]] on an empty
    tensor, which is raised on the spot. *)
Definition input_param (saved t : tensor) : option tensor :=
  match shape t, shape saved with
  | [], [n] =>
      if (n =? 0)%nat then None
      else Some {| shape := []; payload := payload saved |}
  | _, _ => Some saved
  end.

Definition index_error (sd : gmap string tensor) (k : string) (t : tensor)
  : bool :=
  match sd !! k with
  | Some saved => bool_decide (input_param saved t = None)
  | None => false
  end.

Definition size_mismatch (sd : gmap string tensor) (k : string) (t : tensor)
  : bool :=
  match sd !! k ≫= (fun saved => input_param saved t) with
  | Some t' => negb (bool_decide (shape t' = shape t))
  | None => false
  end.

Definition copy_from (sd : gmap string tensor) (k : string) (t : tensor)
  : option tensor :=
  Some (default t (sd !! k ≫= (fun saved => input_param saved t))).

Definition load_state_dict_nonstrict (own sd : gmap string tensor)
  : exn + gmap string tensor :=
  if negb (bool_decide (map_Forall (fun k t => index_error sd k t = false) own))
  then inl (IndexError "index 0 is out of bounds for dimension 0 with size 0")
  else if bool_decide (map_Forall (fun k t => size_mismatch sd k t = false) own)
  then inr (map_imap (copy_from sd) own)
  else inl (RuntimeError "Error(s) in loading state_dict: size mismatch").

(** [args.fsdp] *)
Definition getattr_fsdp (a : Args.t) : M bool :=
  match Args.fsdp a with
  | Some b => ret b
  | None => raise (AttributeError "'Namespace' object has no attribute 'fsdp'")
  end.

(** What the block leaves behind: [resume_from_epoch], the loaded record
    (if any) and the model's state. *)
Record loaded := {
  resume_from_epoch : Z;
  loaded_checkpoint : option checkpoint;
  loaded_model : gmap string tensor
}.

Definition load_checkpoint (w : world) (a : Args.t)
    (model : gmap string tensor) : M loaded :=
  match Args.resume_from_checkpoint a with
  | None =>
      ret {| resume_from_epoch := 0; loaded_checkpoint := None;
             loaded_model := model |}
  | Some path =>
      when (Args.rank a =? 0)%Z
        (print ("Loading checkpoint from " +:+ path)) ;;;
      do ck <- torch_load w path;
      let msd := rename_keys (model_state_dict ck) in
      let resume := (epoch ck + 1)%Z in
      do fsdp <- getattr_fsdp a;
      if negb fsdp || (Args.rank a =? 0)%Z then
        do model' <- lift (load_state_dict_nonstrict model msd);
        ret {| resume_from_epoch := resume; loaded_checkpoint := Some ck;
               loaded_model := model' |}
      else
        ret {| resume_from_epoch := resume; loaded_checkpoint := Some ck;
               loaded_model := model |}
  end.

(** ** The optimizer (lines 234-248) *)

Record optimizer := {
  param_groups : list param_group;
  opt_state : gmap nat nat
}.

(** [torch.optim.AdamW(groups, betas=(0.9, 0.999))]: no state yet. *)
Definition AdamW (groups : list param_group) : optimizer :=
  {| param_groups := groups; opt_state := ∅ |}.

Definition restore_group (g : param_group) (s : saved_group) : param_group :=
  {| params := params g;
     weight_decay := sg_weight_decay s;
     lr := sg_lr s |}.

Definition group_size_differs (gs : param_group * saved_group) : bool :=
  negb (length (params gs.1) =? length (sg_params gs.2))%nat.

(** [Optimizer.load_state_dict] of torch: both checks come before any
    change to the optimizer. *)
Definition optimizer_load_state_dict (o : optimizer) (osd : optimizer_state)
  : exn + optimizer :=
  let groups := param_groups o in
  let saved_groups := osd_param_groups osd in
  if negb (length groups =? length saved_groups)%nat then
    inl (ValueError
           "loaded state dict has a different number of parameter groups")
  else if existsb group_size_differs (zip groups saved_groups) then
    inl (ValueError
           "loaded state dict contains a parameter group that doesn't match the size of optimizer's group")
  else
    inr {| param_groups := zip_with restore_group groups saved_groups;
           opt_state := osd_state osd |}.

(** The [try] / [except ValueError] of lines 240-248. *)
Definition load_optimizer_checkpoint (ck : option checkpoint) (o : optimizer)
  : M optimizer :=
  match ck with
  | None => ret o
  | Some c =>
      match optimizer_state_dict c with
      | None => ret o
      | Some osd =>
          match optimizer_load_state_dict o osd with
          | inr o' => ret o'
          | inl (ValueError _) =>
              print "WARNING: Optimizer state_dict could not be loaded due to mismatch." ;;;
              print ("Checkpoint param groups: "
                     +:+ PyInt.str (Z.of_nat (length (osd_param_groups osd)))) ;;;
              print ("Current optimizer param groups: "
                     +:+ PyInt.str (Z.of_nat (length (param_groups o)))) ;;;
              ret o
          | inl e => raise e
          end
      end
  end.

(** The optimizer that [main] builds before any state is restored. *)
Definition build_optimizer (w : world) (a : Args.t) : optimizer :=
  AdamW (get_grouped_params (params_to_optimize (ddp_named_parameters w))
           (Args.learning_rate a) (Args.weight_decay a)
           (Args.gate_learning_rate a) gate_lr_mult_default).

(** ** Total training steps and the schedule (lines 251-278) *)

Definition total_training_steps (a : Args.t) : exn + Z :=
  match PyInt.floordiv (Args.train_num_samples a)
          (Args.batch_size a * Args.world_size a) with
  | inl e => inl e
  | inr q => inr (q * Args.num_epochs a)%Z
  end.

(** The spec's formula, over the rationals:
    [floor(train_num_samples / (batch_size * world_size)) * num_epochs]. *)
Definition spec_total_training_steps (a : Args.t) : Z :=
  (Qfloor (inject_Z (Args.train_num_samples a)
           / inject_Z (Args.batch_size a * Args.world_size a))
   * Args.num_epochs a)%Z.

Inductive schedule :=
| LinearWithWarmup (num_warmup_steps num_training_steps : Z)
| CosineWithWarmup (num_warmup_steps num_training_steps : Z)
| ConstantWithWarmup (num_warmup_steps : Z).

Record scheduler := {
  sched_kind : schedule;
  sched_state : option nat
}.

Definition build_scheduler (a : Args.t) (total : Z) : scheduler :=
  let kind :=
    if String.eqb (Args.lr_scheduler a) "linear"
    then LinearWithWarmup (Args.warmup_steps a) total
    else if String.eqb (Args.lr_scheduler a) "cosine"
    then CosineWithWarmup (Args.warmup_steps a) total
    else ConstantWithWarmup (Args.warmup_steps a) in
  {| sched_kind := kind; sched_state := None |}.

Definition load_scheduler_checkpoint (ck : option checkpoint) (s : scheduler)
  : scheduler :=
  match ck with
  | None => s
  | Some c => {| sched_kind := sched_kind s;
                 sched_state := Some (lr_scheduler_state_dict c) |}
  end.

(** ** The epoch driver (lines 283-303) *)

(** One iteration of the loop for [epoch = e]. *)
Definition epoch_body (e : Z) : M unit :=
  emit (CreateFeatureLoader e) ;;;
  emit (GetData e) ;;;
  emit (SetEpoch e) ;;;
  emit (TrainOneEpoch e) ;;;
  emit (SaveCheckpoint e).

(** The loop over [range(resume_from_epoch, num_epochs)].  [epoch_var] is
    the local variable [epoch]: [None] while nothing was assigned to it. *)
Fixpoint for_epochs (es : list Z) (epoch_var : option Z) : M (option Z) :=
  match es with
  | [] => ret epoch_var
  | e :: es' => epoch_body e ;;; for_epochs es' (Some e)
  end.

(** Reading the local variable [epoch] after the loop. *)
Definition read_epoch (epoch_var : option Z) : M Z :=
  match epoch_var with
  | Some e => ret e
  | None => raise (UnboundLocalError "epoch")
  end.

Definition epoch_driver (resume num_epochs : Z) : M unit :=
  do epoch_var <- for_epochs (PyInt.range resume num_epochs) None;
  (* save final checkpoint *)
  do e <- read_epoch epoch_var;
  emit (SaveCheckpoint e).

(** ** [main] *)

(** Lines 109-135: extending the vocabulary and freezing the embeddings. *)
Definition add_new_tokens (w : world) (a : Args.t) : M unit :=
  match Args.new_tokens a with
  | [] => ret tt
  | _ :: _ =>
      foldr (fun token k =>
               print ("Adding new token " +:+ token +:+ " to tokenizer.") ;;; k)
            (ret tt) (tokens_to_add w) ;;;
      when (negb (length (tokens_to_add w) =? 0)%nat)
        (emit ResizeTokenEmbeddings) ;;;
      if embedding_located w then emit FreezeEmbeddings
      else raise (AttributeError
                    "Could not locate the embedding layer in the language model.")
  end.

Definition main (w : world) (parsed : Args.t) : M unit :=
  check_wandb_flags parsed ;;;
  when (Args.offline parsed) (emit SetOfflineEnv) ;;;
  let '(lr, r, ws) := world_info_from_env w in
  let a := Args.with_world_info parsed lr r ws in
  emit InitDistributedDevice ;;;
  random_seed (Args.seed a) 0 ;;;
  emit CreateModelAndTransforms ;;;
  add_new_tokens w a ;;;
  random_seed (Args.seed a) (Args.rank a) ;;;
  print ("Start running training on rank " +:+ PyInt.str (Args.rank a) +:+ ".") ;;;
  when ((Args.rank a =? 0)%Z && Args.report_to_wandb a) (emit WandbInit) ;;;
  do resume <- discover w a;
  let a := Args.with_resume a resume in
  do ld <- load_checkpoint w a (model_state w);
  print ("Initializing distributed training with "
         +:+ PyInt.str (Args.world_size a) +:+ " GPUs.") ;;;
  when (Args.gradient_checkpointing a) (emit ApplyActivationCheckpointing) ;;;
  do opt <- load_optimizer_checkpoint (loaded_checkpoint ld)
              (build_optimizer w a);
  do total <- lift (total_training_steps a);
  when (Args.rank a =? 0)%Z
    (print ("Total training steps: " +:+ PyInt.str total)) ;;;
  let sched :=
    load_scheduler_checkpoint (loaded_checkpoint ld) (build_scheduler a total) in
  emit ModelTrain ;;;
  epoch_driver (resume_from_epoch ld) (Args.num_epochs a).

(** ** Notions used by the statements *)

(** The groups of [gs] that hold the parameter object [p]. *)
Definition groups_holding (p : parameter) (gs : list param_group)
  : list param_group :=
  filter (fun g => pid p ∈ pid <$> params g) gs.

(** The classification of one entry, as the loop body decides it. *)
Inductive bucket := Decay | NoDecay | Gate.

Global Instance bucket_eq_dec : EqDecision bucket.
Proof. solve_decision. Defined.

Definition is_gate_name (n : string) : bool :=
  PyStr.endswith n "attn_gate" || PyStr.endswith n "ff_gate".

Definition bucket_of (x : string * parameter) : option bucket :=
  if negb (requires_grad x.2) then None
  else if is_gate_name x.1 then Some Gate
  else if (ndim x.2 =? 1)%nat || PyStr.endswith x.1 ".bias"
          || PyStr.contains "norm" (PyStr.lower x.1)
  then Some NoDecay
  else Some Decay.

Definition select (c : bucket) (named : list (string * parameter))
  : list parameter :=
  omap (fun x => if decide (bucket_of x = Some c) then Some x.2 else None) named.

(** The path that the checkpoint of epoch [e] has in directory [dir]. *)
Definition checkpoint_file (dir : string) (e : nat) : string :=
  path_join dir ("checkpoint_" +:+ PyInt.str_of_nat e +:+ ".pt").

(** The directory of a run and the pattern that discovery globs. *)
Definition checkpoint_dir (a : Args.t) : string :=
  path_join checkpoint_base_path (Args.run_name a).

Definition checkpoint_pattern (a : Args.t) : string :=
  path_join (checkpoint_dir a) "checkpoint_*.pt".

(** What a non-strict load leaves under key [k]. *)
Definition nonstrict_result (own sd : gmap string tensor) (k : string)
  : option tensor :=
  match own !! k with
  | None => None
  | Some t => Some (default t (sd !! k))
  end.

(** The shapes of the keys that both dictionaries have agree. *)
Definition shapes_agree (own sd : gmap string tensor) : Prop :=
  forall k t t', own !! k = Some t -> sd !! k = Some t' -> shape t' = shape t.

(** The [SaveCheckpoint] events of a trace, in order. *)
Definition saves (tr : list event) : list Z :=
  omap (fun ev => match ev with SaveCheckpoint e => Some e | _ => None end) tr.

Definition trainings (tr : list event) : list Z :=
  omap (fun ev => match ev with TrainOneEpoch e => Some e | _ => None end) tr.

(** The order in which [sorted] leaves the keyed entries. *)
Definition key_le (x y : Z * string) : Prop := (x.1 <= y.1)%Z.

(** The events of one iteration of the epoch loop. *)
Definition epoch_events (e : Z) : list event :=
  [ CreateFeatureLoader e; GetData e; SetEpoch e; TrainOneEpoch e;
    SaveCheckpoint e ].

(** Decide the three membership tests of [groups_holding_three] from the
    bucket [Hc] of the entry and the characterisation [Hheld]. *)
Ltac held_cases Hheld Hc :=
  let HD := fresh "HD" in
  let HN := fresh "HN" in
  let HG := fresh "HG" in
  pose proof (Hheld Decay) as HD;
  pose proof (Hheld NoDecay) as HN;
  pose proof (Hheld Gate) as HG;
  rewrite Hc in HD, HN, HG;
  repeat destruct (decide _);
  first [ reflexivity | exfalso; intuition congruence ].

(** ** Sample data *)

Module Sample.

Definition p_gate : parameter :=
  {| pid := 0; ndim := 1; requires_grad := true;
     exclude_from_optimizer := None |}.
Definition p_weight : parameter :=
  {| pid := 1; ndim := 2; requires_grad := true;
     exclude_from_optimizer := None |}.
Definition p_norm : parameter :=
  {| pid := 2; ndim := 2; requires_grad := true;
     exclude_from_optimizer := Some false |}.
Definition p_bias : parameter :=
  {| pid := 3; ndim := 1; requires_grad := true;
     exclude_from_optimizer := None |}.
Definition p_frozen : parameter :=
  {| pid := 4; ndim := 2; requires_grad := false;
     exclude_from_optimizer := None |}.
Definition p_excluded : parameter :=
  {| pid := 5; ndim := 2; requires_grad := true;
     exclude_from_optimizer := Some true |}.

Definition named : list (string * parameter) :=
  [ ("module.lang_encoder.layers.0.gated_cross_attn_layer.attn_gate", p_gate);
    ("module.lang_encoder.layers.0.gated_cross_attn_layer.ff.1.weight", p_weight);
    ("module.lang_encoder.layers.0.gated_cross_attn_layer.attn.Norm.weight", p_norm);
    ("module.lang_encoder.layers.0.fc1.bias", p_bias);
    ("module.lang_encoder.embed_tokens.weight", p_frozen);
    ("module.perceiver.latents", p_excluded) ].

Definition config (epochs : Z) (report save : bool) : Args.t :=
  {| Args.run_name := "openflamingo3B";
     Args.resume_from_checkpoint := None;
     Args.batch_size := 128; Args.seed := 42;
     Args.learning_rate := (PyFloat.of_Z 1); Args.lr_scheduler := "constant";
     Args.gate_learning_rate := None;
     Args.warmup_steps := 5000; Args.weight_decay := PyFloat.half;
     Args.gradient_checkpointing := false;
     Args.num_epochs := epochs; Args.offline := false;
     Args.train_num_samples := 10000;
     Args.new_tokens := [];
     Args.report_to_wandb := report;
     Args.save_checkpoints_to_wandb := save;
     Args.local_rank := 0; Args.rank := 0; Args.world_size := 1;
     Args.fsdp := None |}.

(** One epoch, no reporting. *)
Definition args : Args.t := config 1 false false.

Definition run_dir : string := checkpoint_dir args.

Definition saved_tensor : tensor := {| shape := [4; 2]; payload := 7 |}.
Definition own_tensor : tensor := {| shape := [4; 2]; payload := 1 |}.

Definition record (e : Z) : checkpoint :=
  {| model_state_dict := [("module.lang_encoder.fc.weight", saved_tensor);
                          ("module.old_head.weight", saved_tensor)];
     optimizer_state_dict :=
       Some {| osd_state := ∅;
               osd_param_groups :=
                 [ {| sg_params := [0]; sg_weight_decay := PyFloat.half;
                      sg_lr := (PyFloat.of_Z 1) |};
                   {| sg_params := [1; 2]; sg_weight_decay := PyFloat.zero;
                      sg_lr := (PyFloat.of_Z 1) |} ] |};
     lr_scheduler_state_dict := 0;
     epoch := e |}.

Definition files : list string :=
  [ checkpoint_file run_dir 3; checkpoint_file run_dir 7;
    checkpoint_file run_dir 5 ].

(** A run directory that holds the checkpoints of epochs 3, 7 and 5. *)
Definition machine : world :=
  {| world_info_from_env := (0, 0, 1)%Z;
     fs_exists := fun p => String.eqb p run_dir;
     fs_glob := fun pat =>
       if String.eqb pat (checkpoint_pattern args) then files else [];
     fs_checkpoint := fun p =>
       if String.eqb p (checkpoint_file run_dir 7) then Some (record 7)
       else None;
     embedding_located := true;
     tokens_to_add := [];
     model_state :=
       <["lang_encoder.fc.weight" := own_tensor]>
         (<["lang_encoder.embed_tokens.weight" := own_tensor]> ∅);
     ddp_named_parameters := named |}.

(** The same machine before the first run: no run directory yet. *)
Definition fresh_machine : world :=
  {| world_info_from_env := (0, 0, 1)%Z;
     fs_exists := fun _ => false;
     fs_glob := fun _ => [];
     fs_checkpoint := fun _ => None;
     embedding_located := true;
     tokens_to_add := [];
     model_state := model_state machine;
     ddp_named_parameters := named |}.

End Sample.

(** ** Further notions *)

(** The group a bucket becomes in the list of [get_grouped_params]. *)
Definition group_of (c : bucket) (gs : list param_group) : option param_group :=
  match c with
  | Decay => gs !! 0%nat
  | NoDecay => gs !! 1%nat
  | Gate => gs !! 2%nat
  end.

(** The entries that the loop of [get_grouped_params] does not skip. *)
Definition trainable (x : string * parameter) : bool := requires_grad x.2.

(** A character that cannot begin the text of an integer, nor separate
    the parts of a checkpoint name. *)
Definition starts_no_number (c : ascii) : bool :=
  negb (PyInt.is_digit c || PyInt.is_space c
        || Ascii.eqb c "-" || Ascii.eqb c "+"
        || Ascii.eqb c "_" || Ascii.eqb c ".").

(** The message that discovery prints for the file it has chosen. *)
Definition found_message (a : Args.t) (f : string) : string :=
  "Found checkpoint " +:+ f +:+ " for run " +:+ Args.run_name a +:+ ".".

(** Events of the epoch loop, as opposed to those of start-up. *)
Definition is_epoch_event (ev : event) : bool :=
  match ev with
  | CreateFeatureLoader _ | GetData _ | SetEpoch _ | TrainOneEpoch _
  | SaveCheckpoint _ => true
  | _ => false
  end.

Definition startup_only (tr : list event) : Prop :=
  Forall (fun ev => is_epoch_event ev = false) tr.

(** [main] up to the epoch loop: everything before line 283, returning
    [resume_from_epoch]. *)
Definition startup (w : world) (parsed : Args.t) : M Z :=
  check_wandb_flags parsed ;;;
  when (Args.offline parsed) (emit SetOfflineEnv) ;;;
  let '(lr, r, ws) := world_info_from_env w in
  let a := Args.with_world_info parsed lr r ws in
  emit InitDistributedDevice ;;;
  random_seed (Args.seed a) 0 ;;;
  emit CreateModelAndTransforms ;;;
  add_new_tokens w a ;;;
  random_seed (Args.seed a) (Args.rank a) ;;;
  print ("Start running training on rank " +:+ PyInt.str (Args.rank a) +:+ ".") ;;;
  when ((Args.rank a =? 0)%Z && Args.report_to_wandb a) (emit WandbInit) ;;;
  do resume <- discover w a;
  let a := Args.with_resume a resume in
  do ld <- load_checkpoint w a (model_state w);
  print ("Initializing distributed training with "
         +:+ PyInt.str (Args.world_size a) +:+ " GPUs.") ;;;
  when (Args.gradient_checkpointing a) (emit ApplyActivationCheckpointing) ;;;
  do opt <- load_optimizer_checkpoint (loaded_checkpoint ld)
              (build_optimizer w a);
  do total <- lift (total_training_steps a);
  when (Args.rank a =? 0)%Z
    (print ("Total training steps: " +:+ PyInt.str total)) ;;;
  emit ModelTrain ;;;
  ret (resume_from_epoch ld).

(** A seed that all three generators of [random_seed] accept. *)
Definition seed_ok (s : Z) : Prop := (0 <= s < 2 ^ 32)%Z.

(** The rank and the world size that [world_info_from_env] reports, and
    the namespace once they are stored in it (line 95). *)
Definition env_rank (w : world) : Z := (world_info_from_env w).1.2.
Definition env_world_size (w : world) : Z := (world_info_from_env w).2.

Definition launched (w : world) (parsed : Args.t) : Args.t :=
  Args.with_world_info parsed
    (world_info_from_env w).1.1 (env_rank w) (env_world_size w).

(** The events of [main] before and after the model is built, when no
    new token is asked for. *)
Definition offline_events (a : Args.t) : list event :=
  if Args.offline a then [SetOfflineEnv] else [].

Definition wandb_events (w : world) (a : Args.t) : list event :=
  if (env_rank w =? 0)%Z && Args.report_to_wandb a then [WandbInit] else [].

Definition adding_message (token : string) : event :=
  Print ("Adding new token " +:+ token +:+ " to tokenizer.").

Definition resize_events (w : world) : list event :=
  if (length (tokens_to_add w) =? 0)%nat then [] else [ResizeTokenEmbeddings].

(** The configuration passes the check of lines 88-89. *)
Definition wandb_flags_ok (a : Args.t) : Prop :=
  Args.save_checkpoints_to_wandb a = false \/ Args.report_to_wandb a = true.

(** ** New tokens (lines 109-120) *)

Section NewTokens.

(** The tokenizer is a collaborator: its type and the methods that [main]
    calls on it.  [convert_tokens_to_ids] on a list converts each token. *)
Context {tokenizer : Type}.
Variable convert_token_to_id : tokenizer -> string -> Z.
Variable unk_token_id : tokenizer -> Z.
Variable add_special_tokens : tokenizer -> list string -> tokenizer.

Definition convert_tokens_to_ids (tok : tokenizer) (tokens : list string)
  : list Z :=
  convert_token_to_id tok <$> tokens.

(** [for token, token_id in zip(args.new_tokens, task_token_ids)], with
    the list [tokens_to_add] built so far in [acc]. *)
Fixpoint collect_unknown (tok : tokenizer) (pairs : list (string * Z))
    (acc : list string) : M (list string) :=
  match pairs with
  | [] => ret acc
  | (token, token_id) :: rest =>
      if (token_id =? unk_token_id tok)%Z then
        print ("Adding new token " +:+ token +:+ " to tokenizer.") ;;;
        collect_unknown tok rest (acc ++ [token])
      else collect_unknown tok rest acc
  end.

(** Lines 111-120: the tokenizer and [task_token_ids] after the block. *)
Definition extend_vocabulary (tok : tokenizer) (new_tokens : list string)
  : M (tokenizer * list Z) :=
  let task_token_ids := convert_tokens_to_ids tok new_tokens in
  do added <- collect_unknown tok (zip new_tokens task_token_ids) [];
  match added with
  | [] => ret (tok, task_token_ids)
  | _ :: _ =>
      let tok' := add_special_tokens tok added in
      emit ResizeTokenEmbeddings ;;;
      ret (tok', convert_tokens_to_ids tok' added)
  end.

(** The requested tokens that the tokenizer maps to its unknown token. *)
Definition unknown_tokens (tok : tokenizer) (new_tokens : list string)
  : list string :=
  List.filter
    (fun t => (convert_token_to_id tok t =? unk_token_id tok)%Z) new_tokens.

End NewTokens.

(** ** More sample data *)

Module Cases.

(** The run directory of [Sample.machine] with one more file in it. *)
Definition cluttered_machine : world :=
  {| world_info_from_env := (0, 0, 1)%Z;
     fs_exists := fs_exists Sample.machine;
     fs_glob := fun pat =>
       if String.eqb pat (checkpoint_pattern Sample.args)
       then [ checkpoint_file Sample.run_dir 3;
              Sample.run_dir +:+ "/checkpoint_best.pt";
              checkpoint_file Sample.run_dir 7 ]
       else [];
     fs_checkpoint := fs_checkpoint Sample.machine;
     embedding_located := true;
     tokens_to_add := [];
     model_state := model_state Sample.machine;
     ddp_named_parameters := Sample.named |}.

(** A run directory in which epoch 7 appears under two names. *)
Definition padded_machine : world :=
  {| world_info_from_env := (0, 0, 1)%Z;
     fs_exists := fs_exists Sample.machine;
     fs_glob := fun pat =>
       if String.eqb pat (checkpoint_pattern Sample.args)
       then [ Sample.run_dir +:+ "/checkpoint_07.pt";
              checkpoint_file Sample.run_dir 3;
              checkpoint_file Sample.run_dir 7 ]
       else [];
     fs_checkpoint := fs_checkpoint Sample.machine;
     embedding_located := true;
     tokens_to_add := [];
     model_state := model_state Sample.machine;
     ddp_named_parameters := Sample.named |}.

(** A resume from an explicit path when nothing has set [args.fsdp]. *)
Definition resuming_without_fsdp : Args.t :=
  {| Args.run_name := "openflamingo3B";
     Args.resume_from_checkpoint := Some (checkpoint_file Sample.run_dir 7);
     Args.batch_size := 128; Args.seed := 42;
     Args.learning_rate := PyFloat.of_Z 1; Args.lr_scheduler := "constant";
     Args.gate_learning_rate := None;
     Args.warmup_steps := 5000; Args.weight_decay := PyFloat.half;
     Args.gradient_checkpointing := false;
     Args.num_epochs := 10; Args.offline := false;
     Args.train_num_samples := 10000;
     Args.new_tokens := [];
     Args.report_to_wandb := false;
     Args.save_checkpoints_to_wandb := false;
     Args.local_rank := 0; Args.rank := 0; Args.world_size := 1;
     Args.fsdp := None |}.

(** A launch environment that reports a world of size zero. *)
Definition no_devices : world :=
  {| world_info_from_env := (0, 0, 0)%Z;
     fs_exists := fun _ => false;
     fs_glob := fun _ => [];
     fs_checkpoint := fun _ => None;
     embedding_located := true;
     tokens_to_add := [];
     model_state := model_state Sample.machine;
     ddp_named_parameters := Sample.named |}.

(** Three epochs on a machine without a run directory, and ten epochs on
    the machine that holds the checkpoint of epoch 7. *)
Definition first_run : Args.t := Sample.config 3 false false.
Definition ten_epochs : Args.t := Sample.config 10 false false.

(** One new token for a language model whose embedding layer is not
    where [main] looks for it. *)
Definition with_new_tokens : Args.t :=
  {| Args.run_name := "openflamingo3B";
     Args.resume_from_checkpoint := None;
     Args.batch_size := 128; Args.seed := 42;
     Args.learning_rate := PyFloat.of_Z 1; Args.lr_scheduler := "constant";
     Args.gate_learning_rate := None;
     Args.warmup_steps := 5000; Args.weight_decay := PyFloat.half;
     Args.gradient_checkpointing := false;
     Args.num_epochs := 1; Args.offline := false;
     Args.train_num_samples := 10000;
     Args.new_tokens := ["<tumor>"];
     Args.report_to_wandb := false;
     Args.save_checkpoints_to_wandb := false;
     Args.local_rank := 0; Args.rank := 0; Args.world_size := 1;
     Args.fsdp := None |}.

Definition unknown_model : world :=
  {| world_info_from_env := (0, 0, 1)%Z;
     fs_exists := fun _ => false;
     fs_glob := fun _ => [];
     fs_checkpoint := fun _ => None;
     embedding_located := false;
     tokens_to_add := ["<tumor>"];
     model_state := model_state Sample.machine;
     ddp_named_parameters := Sample.named |}.

(** A small tokenizer: a vocabulary whose entry 0 is the unknown token;
    new special tokens are appended. *)
Fixpoint index_of (t : string) (vocab : list string) : option nat :=
  match vocab with
  | [] => None
  | v :: vocab' =>
      if String.eqb t v then Some 0%nat else S <$> index_of t vocab'
  end.

Definition vocab_id (vocab : list string) (t : string) : Z :=
  match index_of t vocab with
  | Some i => Z.of_nat i
  | None => 0%Z
  end.

Definition vocab_unk (vocab : list string) : Z := 0%Z.

Definition vocab_add (vocab added : list string) : list string :=
  vocab ++ added.

Definition vocabulary : list string := ["<unk>"; "the"; "<image>"].

(** An optimizer state saved by a run with the groups of [Sample.named],
    trained at another learning rate. *)
Definition matching_state : optimizer_state :=
  {| osd_state := <[0%nat := 11%nat]> ∅;
     osd_param_groups :=
       [ {| sg_params := [0%nat]; sg_weight_decay := PyFloat.half;
            sg_lr := PyFloat.of_Z 3 |};
         {| sg_params := [1%nat; 2%nat]; sg_weight_decay := PyFloat.zero;
            sg_lr := PyFloat.of_Z 3 |};
         {| sg_params := [3%nat]; sg_weight_decay := PyFloat.zero;
            sg_lr := PyFloat.of_Z 15 |} ] |}.

Definition matching_record : checkpoint :=
  {| model_state_dict := [];
     optimizer_state_dict := Some matching_state;
     lr_scheduler_state_dict := 0;
     epoch := 0 |}.

End Cases.

(** A key saved by a model that was wrapped [n] times. *)
Fixpoint wrapped (n : nat) (k : string) : string :=
  match n with
  | O => k
  | S n' => "module." +:+ wrapped n' k
  end.

(** The line that [main] prints, on rank 0, before it reads a
    checkpoint. *)
Definition loading_message (a : Args.t) (path : string) : list event :=
  if (Args.rank a =? 0)%Z
  then [Print ("Loading checkpoint from " +:+ path)]
  else [].

(** The save that follows the epoch loop. *)
Definition final_save (resume num_epochs : Z) : list Z :=
  if (resume <? num_epochs)%Z then [(num_epochs - 1)%Z] else [].

(** * Proofs *)

(** ** Parameter grouping *)

Section Grouping.

Implicit Types (named : list (string * parameter)) (p : parameter).

Lemma bucket_step_select b x :
  bucket_step b x =
  {| decay := decay b ++ select Decay [x];
     no_decay := no_decay b ++ select NoDecay [x];
     gate := gate b ++ select Gate [x] |}.
Proof.
  destruct x as [n p], b as [d nd g].
  unfold bucket_step, select, bucket_of, is_gate_name; simpl.
  destruct (requires_grad p); simpl; [|by rewrite !app_nil_r].
  destruct (PyStr.endswith n "attn_gate" || PyStr.endswith n "ff_gate");
    simpl; [by rewrite !app_nil_r|].
  destruct ((ndim p =? 1)%nat || PyStr.endswith n ".bias"
            || PyStr.contains "norm" (PyStr.lower n));
    simpl; by rewrite !app_nil_r.
Qed.

Lemma select_cons c x named :
  select c (x :: named) = select c [x] ++ select c named.
Proof. unfold select; simpl. by destruct (decide _). Qed.

Lemma fold_bucket_step named b :
  fold_left bucket_step named b =
  {| decay := decay b ++ select Decay named;
     no_decay := no_decay b ++ select NoDecay named;
     gate := gate b ++ select Gate named |}.
Proof.
  revert b; induction named as [|x named IH]; intros b.
  - destruct b; simpl. by rewrite !app_nil_r.
  - rewrite (select_cons Decay), (select_cons NoDecay), (select_cons Gate).
    cbn [fold_left]. rewrite IH, bucket_step_select. cbn [decay no_decay gate].
    by rewrite !app_assoc.
Qed.

Lemma fill_buckets_select named :
  fill_buckets named =
  {| decay := select Decay named;
     no_decay := select NoDecay named;
     gate := select Gate named |}.
Proof. unfold fill_buckets. by rewrite fold_bucket_step. Qed.

Lemma elem_of_select c named p :
  p ∈ select c named <-> exists n, (n, p) ∈ named /\ bucket_of (n, p) = Some c.
Proof.
  unfold select. rewrite list_elem_of_omap. split.
  - intros [[n q] [Hin Hq]]. destruct (decide _) as [Hc|]; [|done].
    simpl in Hq. injection Hq as <-. eauto.
  - intros (n & Hin & Hc). exists (n, p). split; [done|].
    by rewrite decide_True.
Qed.

(** Entries are told apart by the identity of their parameter. *)
Lemma same_entry named x y :
  NoDup ((fun e => pid e.2) <$> named) ->
  x ∈ named -> y ∈ named -> pid x.2 = pid y.2 -> x = y.
Proof.
  induction named as [|z named IH]; intros Hnd Hx Hy Hpid.
  - by apply elem_of_nil in Hx.
  - rewrite fmap_cons in Hnd. apply NoDup_cons in Hnd as [Hz Hnd].
    apply elem_of_cons in Hx as [->|Hx], Hy as [->|Hy]; auto.
    + exfalso. apply Hz. rewrite Hpid.
      by apply (list_elem_of_fmap_2 (fun e => pid e.2)).
    + exfalso. apply Hz. rewrite <- Hpid.
      by apply (list_elem_of_fmap_2 (fun e => pid e.2)).
Qed.

Lemma held_by_select c named x :
  NoDup ((fun e => pid e.2) <$> named) -> x ∈ named ->
  pid x.2 ∈ pid <$> select c named <-> bucket_of x = Some c.
Proof.
  intros Hnd Hx. rewrite list_elem_of_fmap. split.
  - intros (q & Hpid & Hq). apply elem_of_select in Hq as (n & Hin & Hc).
    by rewrite (same_entry named x (n, q) Hnd Hx Hin Hpid).
  - intros Hc. exists x.2. split; [done|]. apply elem_of_select.
    exists x.1. by destruct x.
Qed.

Lemma NoDup_params_to_optimize named :
  NoDup ((fun e => pid e.2) <$> named) ->
  NoDup ((fun e => pid e.2) <$> params_to_optimize named).
Proof.
  unfold params_to_optimize.
  induction named as [|x named IH]; simpl; [done|].
  intros [Hx Hnd]%NoDup_cons. destruct (optimizable x); simpl; auto.
  apply NoDup_cons. split; auto.
  intros (y & Hpid & Hy)%list_elem_of_fmap. apply Hx.
  apply list_elem_of_fmap. exists y. split; [done|].
  apply list_elem_of_In, filter_In in Hy as [Hy _]. by apply list_elem_of_In.
Qed.

Lemma elem_of_params_to_optimize named x :
  x ∈ params_to_optimize named <-> x ∈ named /\ optimizable x = true.
Proof.
  unfold params_to_optimize. rewrite !list_elem_of_In. apply filter_In.
Qed.

End Grouping.

Section GroupingClaims.

Implicit Types (named : list (string * parameter)) (p : parameter).

(** The group that [get_grouped_params] builds for a bucket. *)
Lemma get_grouped_params_select named base_lr wd gate_lr gate_lr_mult :
  get_grouped_params named base_lr wd gate_lr gate_lr_mult =
  [ {| params := select Decay named; weight_decay := wd; lr := base_lr |};
    {| params := select NoDecay named; weight_decay := PyFloat.zero;
       lr := base_lr |};
    {| params := select Gate named; weight_decay := PyFloat.zero;
       lr := match gate_lr with
             | Some g => g
             | None => PyFloat.mul base_lr gate_lr_mult
             end |} ].
Proof. unfold get_grouped_params. by rewrite fill_buckets_select. Qed.

Lemma groups_holding_three p d nd g :
  groups_holding p [d; nd; g] =
  (if decide (pid p ∈ pid <$> params d) then [d] else [])
  ++ (if decide (pid p ∈ pid <$> params nd) then [nd] else [])
  ++ (if decide (pid p ∈ pid <$> params g) then [g] else []).
Proof.
  unfold groups_holding. rewrite !filter_cons, filter_nil.
  repeat destruct (decide _); reflexivity.
Qed.

Lemma bucket_of_trainable x :
  requires_grad x.2 = true ->
  bucket_of x = Some Decay \/ bucket_of x = Some NoDecay
  \/ bucket_of x = Some Gate.
Proof.
  intros Hg. unfold bucket_of. rewrite Hg; simpl.
  destruct (is_gate_name x.1); [auto|].
  destruct (_ || _ || _); auto.
Qed.

Lemma bucket_of_gate_name x :
  requires_grad x.2 = true -> is_gate_name x.1 = true ->
  bucket_of x = Some Gate.
Proof. intros Hg Hn. unfold bucket_of. by rewrite Hg, Hn. Qed.

Lemma not_held_outside named c x :
  NoDup ((fun e => pid e.2) <$> named) -> x ∈ named ->
  optimizable x = false ->
  pid x.2 ∉ pid <$> select c (params_to_optimize named).
Proof.
  intros Hnd Hx Hopt (q & Hpid & Hq)%list_elem_of_fmap.
  apply elem_of_select in Hq as (n & Hin & _).
  apply elem_of_params_to_optimize in Hin as [Hin Hq].
  rewrite <- (same_entry named x (n, q) Hnd Hx Hin Hpid) in Hq. congruence.
Qed.

End GroupingClaims.

(** C1.  For every list of named parameters with pairwise distinct
    parameter objects, filtering and grouping yield exactly three groups
    (decay, no_decay, gate); a listed parameter that requires gradients
    and is not flagged [exclude_from_optimizer] is held by exactly one of
    them, and a parameter that is frozen or flagged is held by none. *)
Theorem grouping_is_a_partition
    (named : list (string * parameter)) base_lr wd gate_lr gate_lr_mult :
  NoDup ((fun e => pid e.2) <$> named) ->
  exists d nd g,
    get_grouped_params (params_to_optimize named)
      base_lr wd gate_lr gate_lr_mult = [d; nd; g]
    /\ forall n p, (n, p) ∈ named ->
         (requires_grad p = true -> getattr_exclude p = false ->
            length (groups_holding p [d; nd; g]) = 1)
         /\ (requires_grad p = false \/ getattr_exclude p = true ->
            groups_holding p [d; nd; g] = []).
Proof.
  intros Hnd. rewrite get_grouped_params_select.
  eexists _, _, _. split; [reflexivity|].
  intros n p Hin. rewrite groups_holding_three. cbn [params].
  pose proof (NoDup_params_to_optimize named Hnd) as Hnd'.
  split.
  - intros Hg Hex.
    assert (Hopt : (n, p) ∈ params_to_optimize named).
    { apply elem_of_params_to_optimize. split; [done|].
      unfold optimizable; simpl. by rewrite Hg, Hex. }
    pose proof (fun c => held_by_select c _ (n, p) Hnd' Hopt) as Hheld.
    simpl in Hheld.
    destruct (bucket_of_trainable (n, p) Hg) as [Hc|[Hc|Hc]];
      held_cases Hheld Hc.
  - intros Hno.
    assert (Hopt : optimizable (n, p) = false).
    { unfold optimizable; simpl. destruct Hno as [-> | ->]; [done|].
      by rewrite andb_false_r. }
    pose proof (fun c => not_held_outside named c (n, p) Hnd Hin Hopt) as Hout.
    simpl in Hout.
    repeat destruct (decide _); try reflexivity;
      exfalso; eapply Hout; eassumption.
Qed.

Lemma grouping_is_a_partition_witness :
  exists d nd g,
    get_grouped_params (params_to_optimize Sample.named)
      (PyFloat.of_Z 1) PyFloat.half None gate_lr_mult_default = [d; nd; g]
    /\ forall n p, (n, p) ∈ Sample.named ->
         (requires_grad p = true -> getattr_exclude p = false ->
            length (groups_holding p [d; nd; g]) = 1)
         /\ (requires_grad p = false \/ getattr_exclude p = true ->
            groups_holding p [d; nd; g] = []).
Proof.
  apply grouping_is_a_partition.
  apply (bool_decide_unpack _). vm_compute. exact I.
Defined.

(** C2.  A parameter that requires gradients and whose name ends with
    [attn_gate] or [ff_gate] is put in the gate group, and in no other
    group, whatever its number of dimensions and whatever else its name
    contains. *)
Theorem gate_suffix_goes_to_gate
    (named : list (string * parameter)) base_lr wd gate_lr gate_lr_mult n p :
  NoDup ((fun e => pid e.2) <$> named) ->
  (n, p) ∈ named ->
  requires_grad p = true ->
  PyStr.endswith n "attn_gate" = true \/ PyStr.endswith n "ff_gate" = true ->
  exists d nd g,
    get_grouped_params named base_lr wd gate_lr gate_lr_mult = [d; nd; g]
    /\ p ∈ params g
    /\ groups_holding p [d; nd; g] = [g].
Proof.
  intros Hnd Hin Hg Hname. rewrite get_grouped_params_select.
  eexists _, _, _. split; [reflexivity|].
  assert (Hc : bucket_of (n, p) = Some Gate).
  { apply bucket_of_gate_name; [done|]. unfold is_gate_name; simpl.
    destruct Hname as [-> | ->]; [done|by rewrite orb_true_r]. }
  split.
  - cbn [params]. apply elem_of_select. eauto.
  - rewrite groups_holding_three. cbn [params].
    pose proof (fun c => held_by_select c _ (n, p) Hnd Hin) as Hheld.
    simpl in Hheld.
    held_cases Hheld Hc.
Qed.

Lemma gate_suffix_goes_to_gate_witness :
  exists d nd g,
    get_grouped_params
      [("module.layers.3.norm.attn_gate", Sample.p_gate);
       ("module.layers.3.norm.ff_gate", Sample.p_weight);
       ("module.layers.3.norm.weight", Sample.p_norm)]
      (PyFloat.of_Z 1) PyFloat.half None gate_lr_mult_default = [d; nd; g]
    /\ Sample.p_gate ∈ params g
    /\ groups_holding Sample.p_gate [d; nd; g] = [g].
Proof.
  apply (gate_suffix_goes_to_gate _ _ _ _ _ "module.layers.3.norm.attn_gate").
  - apply (bool_decide_unpack _). vm_compute. exact I.
  - apply list_elem_of_here.
  - reflexivity.
  - left. reflexivity.
Defined.

(** C7.  The gate group's learning rate is the configured gate rate when
    there is one and [base_lr * gate_lr_mult] otherwise, [main] passing
    no multiplier so that the default 5.0 applies; the decay and
    no_decay groups use the base learning rate. *)
Theorem gate_learning_rate_rule (w : world) (a : Args.t) :
  exists d nd g,
    param_groups (build_optimizer w a) = [d; nd; g]
    /\ lr d = Args.learning_rate a
    /\ lr nd = Args.learning_rate a
    /\ lr g = match Args.gate_learning_rate a with
              | Some rate => rate
              | None => PyFloat.mul (Args.learning_rate a) (PyFloat.of_Z 5)
              end
    /\ forall named base_lr wd gate_lr mult,
         lr <$> get_grouped_params named base_lr wd gate_lr mult =
         [ base_lr; base_lr;
           match gate_lr with
           | Some rate => rate
           | None => PyFloat.mul base_lr mult
           end ].
Proof.
  unfold build_optimizer, AdamW. cbn [param_groups].
  rewrite get_grouped_params_select.
  eexists _, _, _. split; [reflexivity|].
  repeat split; intros; by rewrite get_grouped_params_select.
Qed.

(** C10.  Whatever the parameters and the configured weight decay, the
    gate group and the no_decay group carry weight decay 0.0 and only
    the decay group carries the configured value. *)
Theorem gate_group_has_no_weight_decay
    (named : list (string * parameter)) base_lr wd gate_lr gate_lr_mult :
  (exists d nd g,
     get_grouped_params named base_lr wd gate_lr gate_lr_mult = [d; nd; g]
     /\ weight_decay d = wd
     /\ weight_decay nd = PyFloat.zero
     /\ weight_decay g = PyFloat.zero)
  /\ forall (w : world) (a : Args.t),
       weight_decay <$> param_groups (build_optimizer w a)
       = [Args.weight_decay a; PyFloat.zero; PyFloat.zero].
Proof.
  split.
  - rewrite get_grouped_params_select. by eexists _, _, _.
  - intros w a. unfold build_optimizer, AdamW. cbn [param_groups].
    by rewrite get_grouped_params_select.
Qed.

(** ** Strings *)

Section Strings.

Implicit Types (s t : string) (c sep : ascii).

Lemma append_nil s : "" +:+ s = s.
Proof. reflexivity. Qed.

Lemma append_cons c s t : String c s +:+ t = String c (s +:+ t).
Proof. reflexivity. Qed.

Lemma append_assoc s t u : (s +:+ t) +:+ u = s +:+ (t +:+ u).
Proof.
  induction s as [|c s IH]; [done|]. by rewrite !append_cons, IH.
Qed.

Lemma split_nonempty sep s : PyStr.split sep s <> [].
Proof.
  destruct s as [|c s]; simpl; [done|].
  destruct (Ascii.eqb c sep); [done|]. by destruct (PyStr.split sep s).
Qed.

(** [(a + sep + b).split(sep) == a.split(sep) + b.split(sep)] *)
Lemma split_app_sep sep s t :
  PyStr.split sep (s +:+ String sep t) = PyStr.split sep s ++ PyStr.split sep t.
Proof.
  induction s as [|c s IH].
  - rewrite append_nil. simpl. by rewrite Ascii.eqb_refl.
  - rewrite append_cons. simpl.
    destruct (Ascii.eqb c sep); [by rewrite IH|].
    rewrite IH. pose proof (split_nonempty sep s).
    by destruct (PyStr.split sep s).
Qed.

Lemma split_free sep s :
  PyStr.all_chars (PyStr.differs_from sep) s = true -> PyStr.split sep s = [s].
Proof.
  induction s as [|c s IH]; simpl; [done|].
  unfold PyStr.differs_from at 1.
  intros [Hc Hs]%andb_true_iff. apply negb_true_iff in Hc.
  by rewrite Hc, IH.
Qed.

Lemma last_item_split sep s t :
  PyStr.all_chars (PyStr.differs_from sep) t = true ->
  PyStr.last_item (PyStr.split sep (s +:+ String sep t)) = t.
Proof.
  intros Ht. rewrite split_app_sep, (split_free sep t Ht).
  unfold PyStr.last_item. apply List.last_last.
Qed.

Lemma first_item_split sep s t :
  PyStr.all_chars (PyStr.differs_from sep) s = true ->
  PyStr.first_item (PyStr.split sep (s +:+ String sep t)) = s.
Proof.
  intros Hs. by rewrite split_app_sep, (split_free sep s Hs).
Qed.

Lemma all_chars_impl (f g : ascii -> bool) s :
  (forall c, f c = true -> g c = true) ->
  PyStr.all_chars f s = true -> PyStr.all_chars g s = true.
Proof.
  intros Hfg. induction s as [|c s IH]; simpl; [done|].
  intros [Hc Hs]%andb_true_iff. by rewrite (Hfg c Hc), IH.
Qed.

Lemma all_chars_app f s t :
  PyStr.all_chars f (s +:+ t) = PyStr.all_chars f s && PyStr.all_chars f t.
Proof.
  induction s as [|c s IH]; [done|].
  rewrite append_cons. simpl. by rewrite IH, andb_assoc.
Qed.

(** Replacing an occurrence at the head, and a string without any. *)
Lemma replace_from_skip old new s t :
  PyStr.replace_from old new (String.length s) (s +:+ t)
  = PyStr.replace_from old new 0 t.
Proof.
  induction s as [|c s IH]; [done|]. rewrite append_cons. apply IH.
Qed.

Lemma replace_absent old new s :
  PyStr.contains old s = false -> PyStr.replace old new s = s.
Proof.
  destruct old as [|a old]; [by destruct s|].
  unfold PyStr.replace. induction s as [|c s IH]; [done|].
  cbn [PyStr.contains PyStr.replace_from].
  intros [Hp Hs]%orb_false_iff. rewrite Hp. by rewrite IH.
Qed.

Lemma prefix_app s t : String.prefix s (s +:+ t) = true.
Proof.
  induction s as [|c s IH]; [by destruct t|].
  rewrite append_cons. simpl.
  destruct (ascii_dec c c); [apply IH|done].
Qed.

Lemma replace_head old new c s :
  PyStr.replace (String c old) new (String c old +:+ s)
  = new +:+ PyStr.replace (String c old) new s.
Proof.
  unfold PyStr.replace. rewrite append_cons. cbn [PyStr.replace_from].
  rewrite <- append_cons, prefix_app. cbn [String.length].
  replace (S (String.length old) - 1) with (String.length old) by lia.
  by rewrite replace_from_skip.
Qed.

End Strings.

(** ** Decimal text of integers *)

Section Decimal.

Lemma digit_not_space c : PyInt.is_digit c = true -> PyInt.is_space c = false.
Proof.
  unfold PyInt.is_digit, PyInt.is_space.
  intros [H1 H2]%andb_true_iff.
  apply Nat.leb_le in H1, H2.
  repeat (apply orb_false_iff; split).
  - apply andb_false_iff. right. apply Nat.leb_gt. lia.
  - apply Nat.eqb_neq. lia.
  - apply Nat.eqb_neq. lia.
  - apply Nat.eqb_neq. lia.
Qed.

Lemma digit_differs c sep :
  PyInt.is_digit sep = false -> PyInt.is_digit c = true ->
  PyStr.differs_from sep c = true.
Proof.
  intros Hsep Hc. unfold PyStr.differs_from.
  destruct (Ascii.eqb_spec c sep) as [->|]; [congruence|done].
Qed.

Lemma uint_all_digits d :
  PyStr.all_chars PyInt.is_digit (NilEmpty.string_of_uint d) = true.
Proof. induction d; simpl; auto. Qed.

Lemma lstrip_digits s :
  PyStr.all_chars PyInt.is_digit s = true -> PyInt.lstrip s = s.
Proof.
  destruct s as [|c s]; simpl; [done|].
  intros [Hc _]%andb_true_iff. by rewrite (digit_not_space c Hc).
Qed.

Lemma rstrip_digits s :
  PyStr.all_chars PyInt.is_digit s = true -> PyInt.rstrip s = s.
Proof.
  induction s as [|c s IH]; simpl; [done|].
  intros [Hc Hs]%andb_true_iff. rewrite (IH Hs).
  destruct s; [by rewrite (digit_not_space c Hc)|done].
Qed.

Lemma digits_uint d acc b :
  d <> Decimal.Nil \/ b = true ->
  PyInt.digits (Z.of_nat acc) b (NilEmpty.string_of_uint d)
  = Some (Z.of_nat (Nat.of_uint_acc d acc)).
Proof.
  revert acc b. induction d; intros acc b Hb;
    [ destruct Hb as [?| ->]; [done|reflexivity] | .. ];
    cbn [NilEmpty.string_of_uint PyInt.digits Nat.of_uint_acc];
    change (PyInt.is_digit _) with true; cbv iota.
  all: rewrite <- (IHd _ true (or_intror eq_refl)); f_equal.
  all: rewrite Nat.tail_mul_spec; unfold PyInt.digit_value.
  all: match goal with
       | |- context [(nat_of_ascii ?c - 48)%nat] =>
           let v := eval vm_compute in (nat_of_ascii c - 48)%nat in
           change (nat_of_ascii c - 48)%nat with v
       end.
  all: lia.
Qed.

Lemma int_uint d :
  d <> Decimal.Nil ->
  PyInt.int (NilEmpty.string_of_uint d) = Some (Z.of_nat (Nat.of_uint d)).
Proof.
  intros Hd. unfold PyInt.int.
  rewrite lstrip_digits, rstrip_digits by apply uint_all_digits.
  pose proof (digits_uint d 0 false (or_introl Hd)) as Hdig.
  destruct d; [done|..]; exact Hdig.
Qed.

Lemma to_uint_not_nil n : Nat.to_uint n <> Decimal.Nil.
Proof.
  rewrite <- (DecimalNat.Unsigned.of_to n) at 1.
  rewrite DecimalNat.Unsigned.to_of. unfold Decimal.unorm.
  destruct (Decimal.nzhead _); done.
Qed.

(** [int(str(n)) == n] *)
Lemma int_str_of_nat n : PyInt.int (PyInt.str_of_nat n) = Some (Z.of_nat n).
Proof.
  unfold PyInt.str_of_nat. rewrite int_uint by apply to_uint_not_nil.
  by rewrite DecimalNat.Unsigned.of_to.
Qed.

Lemma str_of_nat_digits n :
  PyStr.all_chars PyInt.is_digit (PyInt.str_of_nat n) = true.
Proof. apply uint_all_digits. Qed.

End Decimal.

(** ** Checkpoint discovery *)

Section Discovery.

Implicit Types (dir : string) (e : nat) (l : list (Z * string)).

Lemma path_join_checkpoint dir rest :
  exists pre, path_join dir ("checkpoint_" +:+ rest) = pre +:+ String "_" rest.
Proof.
  unfold path_join.
  replace (PyStr.startswith ("checkpoint_" +:+ rest) "/") with false
    by reflexivity.
  destruct (_ || _).
  - exists (dir +:+ "checkpoint"). by rewrite append_assoc.
  - exists (dir +:+ "/checkpoint"). by rewrite append_assoc.
Qed.

(** The sort key of a checkpoint path is its epoch. *)
Lemma epoch_key_checkpoint_file dir e :
  epoch_key (checkpoint_file dir e) = Some (Z.of_nat e).
Proof.
  unfold epoch_key, checkpoint_file.
  destruct (path_join_checkpoint dir (PyInt.str_of_nat e +:+ ".pt"))
    as [pre ->].
  rewrite last_item_split.
  - change (PyInt.str_of_nat e +:+ ".pt")
      with (PyInt.str_of_nat e +:+ String "." "pt").
    rewrite first_item_split; [apply int_str_of_nat|].
    eapply all_chars_impl; [|apply str_of_nat_digits].
    intros c. by apply digit_differs.
  - rewrite all_chars_app. apply andb_true_iff; split; [|reflexivity].
    eapply all_chars_impl; [|apply str_of_nat_digits].
    intros c. by apply digit_differs.
Qed.

Lemma keyed_checkpoint_files dir (epochs : list nat) :
  keyed (checkpoint_file dir <$> epochs)
  = inr ((fun e => (Z.of_nat e, checkpoint_file dir e)) <$> epochs).
Proof.
  induction epochs as [|e epochs IH]; [done|].
  cbn [fmap list_fmap keyed] in *.
  by rewrite epoch_key_checkpoint_file, IH.
Qed.

Lemma insert_by_key_perm x l : insert_by_key x l ≡ₚ x :: l.
Proof.
  induction l as [|y l IH]; simpl; [done|].
  destruct (x.1 <=? y.1)%Z; [done|]. rewrite IH. apply Permutation_swap.
Qed.

Lemma sort_by_key_perm l : sort_by_key l ≡ₚ l.
Proof.
  induction l as [|x l IH]; simpl; [done|].
  by rewrite insert_by_key_perm, IH.
Qed.

Lemma insert_by_key_sorted x l :
  StronglySorted key_le l -> StronglySorted key_le (insert_by_key x l).
Proof.
  induction 1 as [|y l Hl IH Hy]; simpl.
  - repeat constructor.
  - destruct (Z.leb_spec x.1 y.1) as [Hxy|Hxy].
    + constructor; [by constructor|]. constructor; [done|].
      eapply Forall_impl; [exact Hy|]. unfold key_le. intros; lia.
    + constructor; [done|]. rewrite insert_by_key_perm.
      constructor; [unfold key_le; lia|done].
Qed.

Lemma sort_by_key_sorted l : StronglySorted key_le (sort_by_key l).
Proof.
  induction l as [|x l IH]; simpl; [constructor|].
  by apply insert_by_key_sorted.
Qed.

(** The last entry of the sorted list is an entry of the input with the
    greatest key. *)
Lemma last_sorted_greatest l d :
  l <> [] ->
  List.last (sort_by_key l) d ∈ l
  /\ forall y, y ∈ l -> (y.1 <= (List.last (sort_by_key l) d).1)%Z.
Proof.
  intros Hl.
  assert (Hne : sort_by_key l <> []).
  { intros Heq. apply Hl, Permutation_nil_r. rewrite <- Heq.
    symmetry. apply sort_by_key_perm. }
  pose proof (sort_by_key_sorted l) as Hs.
  pose proof (app_removelast_last d Hne) as Hsplit.
  set (m := List.last (sort_by_key l) d) in *.
  split.
  - rewrite <- (sort_by_key_perm l), Hsplit. set_solver.
  - intros y Hy. rewrite <- (sort_by_key_perm l), Hsplit in Hy.
    rewrite Hsplit in Hs.
    apply elem_of_app in Hy as [Hy|Hy].
    + apply (StronglySorted_app_1_elem_of _ _ _ _ _ Hs Hy). set_solver.
    + apply list_elem_of_singleton in Hy as ->. done.
Qed.

Lemma last_map_snd l d :
  List.last (List.map snd l) d.2 = (List.last l d).2.
Proof.
  induction l as [|x [|y l] IH]; [done..|]. exact IH.
Qed.

(** Among the checkpoints of several epochs the one of the greatest
    epoch is chosen. *)
Lemma latest_checkpoint_files dir (epochs : list nat) :
  epochs <> [] ->
  latest_checkpoint (checkpoint_file dir <$> epochs)
  = inr (checkpoint_file dir (max_list epochs)).
Proof.
  intros Hne. unfold latest_checkpoint. rewrite keyed_checkpoint_files.
  set (kl := (fun e => (Z.of_nat e, checkpoint_file dir e)) <$> epochs).
  assert (Hkl : kl <> []) by (by destruct epochs).
  destruct (last_sorted_greatest kl (0%Z, "") Hkl) as [Hin Hmax].
  change "" with ((0%Z, "") : Z * string).2.
  rewrite last_map_snd.
  set (m := List.last (sort_by_key kl) (0%Z, "")) in *.
  apply list_elem_of_fmap in Hin as (e & Hm & He).
  rewrite Hm; simpl. do 2 f_equal.
  apply Nat.le_antisymm; [by apply max_list_elem_of_le|].
  assert (Hmx : (Z.of_nat (max_list epochs), checkpoint_file dir (max_list epochs)) ∈ kl).
  { apply list_elem_of_fmap. exists (max_list epochs).
    split; [done|by apply max_list_elem_of]. }
  apply Hmax in Hmx. rewrite Hm in Hmx. simpl in Hmx. lia.
Qed.

End Discovery.

(** ** The monad *)

Section Monad.

Context {A B : Type}.

Lemma outcome_bind (m : M A) (k : A -> M B) :
  outcome (bind m k)
  = match outcome m with
    | inl e => inl e
    | inr x => outcome (k x)
    end.
Proof.
  destruct m as [tr [e|x]]; [done|]. unfold outcome; simpl.
  by destruct (k x).
Qed.

Lemma trace_bind (m : M A) (k : A -> M B) :
  trace (bind m k)
  = trace m ++ match outcome m with
               | inl e => []
               | inr x => trace (k x)
               end.
Proof.
  destruct m as [tr [e|x]]; unfold trace; simpl; [by rewrite app_nil_r|].
  by destruct (k x).
Qed.

Lemma bind_raise (e : exn) (k : A -> M B) : bind (raise e) k = raise e.
Proof. reflexivity. Qed.

Lemma bind_ret (x : A) (k : A -> M B) : bind (ret x) k = k x.
Proof. unfold bind, ret. by destruct (k x). Qed.

End Monad.

(** C3.  Discovery leaves an explicit resume path alone; without one, a
    missing or empty run directory leaves the run without a resume point,
    so that it starts at epoch 0; and when the run directory holds the
    files [checkpoint_<e>.pt] of a non-empty list of epochs, the file of
    the greatest epoch becomes the resume point, as for
    [checkpoint_3.pt], [checkpoint_7.pt], [checkpoint_5.pt]. *)
Theorem discovery_selects_latest (w : world) (a : Args.t) :
  (forall path, Args.resume_from_checkpoint a = Some path ->
     discover w a = ret (Some path))
  /\ (Args.resume_from_checkpoint a = None ->
      fs_exists w (checkpoint_dir a) = false
      \/ fs_glob w (checkpoint_pattern a) = [] ->
      outcome (discover w a) = inr None
      /\ forall model,
           outcome (load_checkpoint w (Args.with_resume a None) model)
           = inr {| resume_from_epoch := 0; loaded_checkpoint := None;
                    loaded_model := model |})
  /\ (forall epochs : list nat,
        Args.resume_from_checkpoint a = None ->
        fs_exists w (checkpoint_dir a) = true ->
        epochs <> [] ->
        fs_glob w (checkpoint_pattern a)
        = checkpoint_file (checkpoint_dir a) <$> epochs ->
        outcome (discover w a)
        = inr (Some (checkpoint_file (checkpoint_dir a) (max_list epochs))))
  /\ latest_checkpoint ["checkpoint_3.pt"; "checkpoint_7.pt"; "checkpoint_5.pt"]
     = inr "checkpoint_7.pt".
Proof.
  unfold discover.
  change (path_join checkpoint_base_path (Args.run_name a))
    with (checkpoint_dir a).
  change (path_join (checkpoint_dir a) "checkpoint_*.pt")
    with (checkpoint_pattern a).
  split; [|split; [|split]].
  - intros path ->. by rewrite andb_false_r.
  - intros Hnone Hempty. split; [|done].
    rewrite Hnone. destruct Hempty as [-> | ->]; [done|].
    by destruct (fs_exists w _).
  - intros epochs Hnone Hdir Hne Hglob.
    rewrite Hnone, Hdir, Hglob. cbn [andb].
    rewrite bool_decide_true by done.
    rewrite length_fmap.
    destruct epochs as [|e epochs]; [done|]. cbn [length Nat.eqb].
    rewrite outcome_bind. unfold lift at 1, outcome at 2. cbn [snd].
    by rewrite latest_checkpoint_files.
  - reflexivity.
Qed.

Lemma discovery_selects_latest_witness :
  discover Sample.machine
    (Args.with_resume Sample.args (Some "/tmp/checkpoint_2.pt"))
  = ret (Some "/tmp/checkpoint_2.pt")
  /\ outcome (discover Sample.fresh_machine Sample.args) = inr None
  /\ outcome (discover Sample.machine Sample.args)
     = inr (Some (checkpoint_file Sample.run_dir 7)).
Proof.
  split; [|split].
  - apply (proj1 (discovery_selects_latest Sample.machine
                    (Args.with_resume Sample.args (Some "/tmp/checkpoint_2.pt")))).
    reflexivity.
  - apply (proj1 (proj2 (discovery_selects_latest Sample.fresh_machine
                           Sample.args))); [reflexivity|].
    left. reflexivity.
  - apply (proj1 (proj2 (proj2 (discovery_selects_latest Sample.machine
                                  Sample.args))) [3; 7; 5]);
      [reflexivity|reflexivity|discriminate|reflexivity].
Defined.

(** ** Loading *)

Section Loading.

Implicit Types (msd : list (string * tensor)) (own sd : gmap string tensor).

(** Keys that have ["module."] only in front lose exactly that prefix;
    keys without it are kept. *)
Lemma rename_key_prefixed k :
  PyStr.contains "module." k = false -> rename_key ("module." +:+ k) = k.
Proof.
  intros Hk. unfold rename_key.
  rewrite (replace_head "odule." "" "m" k).
  rewrite append_nil. by apply replace_absent.
Qed.

Lemma rename_key_plain k :
  PyStr.contains "module." k = false -> rename_key k = k.
Proof. apply replace_absent. Qed.

Lemma foldl_rename_other msd (m : gmap string tensor) j :
  j ∉ (fun kv => rename_key kv.1) <$> msd ->
  foldl (fun m kv => <[rename_key kv.1 := kv.2]> m) m msd !! j = m !! j.
Proof.
  revert m. induction msd as [|x msd IH]; intros m Hj; [done|].
  rewrite fmap_cons in Hj. apply not_elem_of_cons in Hj as [Hx Hj].
  cbn [foldl]. rewrite IH by done. by rewrite lookup_insert_ne.
Qed.

(** Each saved entry is found under its renamed key, provided no two
    entries are renamed to the same key. *)
Lemma rename_keys_lookup msd k v :
  NoDup ((fun kv => rename_key kv.1) <$> msd) ->
  (k, v) ∈ msd ->
  rename_keys msd !! rename_key k = Some v.
Proof.
  unfold rename_keys. generalize (∅ : gmap string tensor).
  induction msd as [|x msd IH]; intros m Hnd Hin.
  - by apply elem_of_nil in Hin.
  - rewrite fmap_cons in Hnd. apply NoDup_cons in Hnd as [Hx Hnd].
    cbn [foldl]. apply elem_of_cons in Hin as [<-|Hin].
    + rewrite foldl_rename_other by done. apply lookup_insert_eq.
    + by apply IH.
Qed.

Lemma input_param_same_shape saved t :
  shape saved = shape t -> input_param saved t = Some saved.
Proof.
  unfold input_param. intros ->. by destruct (shape t) as [|n [|m l]].
Qed.

Lemma shapes_agree_no_index_error own sd :
  shapes_agree own sd ->
  map_Forall (fun k t => index_error sd k t = false) own.
Proof.
  intros Hag k t Hk. unfold index_error.
  destruct (sd !! k) as [t'|] eqn:Hsd; [|done].
  rewrite (input_param_same_shape _ _ (Hag k t t' Hk Hsd)).
  by apply bool_decide_eq_false.
Qed.

Lemma shapes_agree_no_mismatch own sd :
  shapes_agree own sd ->
  map_Forall (fun k t => size_mismatch sd k t = false) own.
Proof.
  intros Hag k t Hk. unfold size_mismatch.
  destruct (sd !! k) as [t'|] eqn:Hsd; [|done]. cbn.
  rewrite (input_param_same_shape _ _ (Hag k t t' Hk Hsd)).
  by rewrite (bool_decide_true _ (Hag k t t' Hk Hsd)).
Qed.

(** A non-strict load never fails on missing or extra keys: keys of the
    model that the dictionary lacks keep their tensor, keys that only
    the dictionary has are ignored. *)
Lemma load_state_dict_nonstrict_ok own sd :
  shapes_agree own sd ->
  exists own',
    load_state_dict_nonstrict own sd = inr own'
    /\ forall k, own' !! k = nonstrict_result own sd k.
Proof.
  intros Hag. unfold load_state_dict_nonstrict.
  rewrite (bool_decide_true _ (shapes_agree_no_index_error _ _ Hag)).
  rewrite (bool_decide_true _ (shapes_agree_no_mismatch _ _ Hag)).
  eexists; split; [reflexivity|].
  intros k. rewrite map_lookup_imap. unfold nonstrict_result, copy_from.
  destruct (own !! k) as [t|] eqn:Hk; [|done]. cbn. f_equal.
  destruct (sd !! k) as [t'|] eqn:Hsd; [|done]. cbn.
  by rewrite (input_param_same_shape _ _ (Hag k t t' Hk Hsd)).
Qed.

(** A key that both sides have with different shapes stops the load,
    strict or not: here an embedding that has grown by two rows since
    the checkpoint was written. *)
Lemma grown_embedding_is_rejected :
  exists msg,
    load_state_dict_nonstrict
      (<["lang_encoder.embed_tokens.weight" :=
           {| shape := [6; 2]; payload := 1 |}]> ∅)
      (<["lang_encoder.embed_tokens.weight" :=
           {| shape := [4; 2]; payload := 7 |}]> ∅)
    = inl (RuntimeError msg).
Proof. eexists. vm_compute. reflexivity. Qed.

End Loading.

(** Renaming is not the stripping of a prefix: the key below has a
    second occurrence of ["module."], which the code removes as well. *)
Lemma rename_key_is_not_prefix_stripping :
  rename_key "module.submodule.weight"
  <> spec_rename_key "module.submodule.weight".
Proof. vm_compute. discriminate. Qed.

(** ** The optimizer state *)

Lemma build_optimizer_fresh (w : world) (a : Args.t) :
  length (param_groups (build_optimizer w a)) = 3
  /\ opt_state (build_optimizer w a) = ∅.
Proof. done. Qed.

(** C5.  When the saved optimizer state has another number of parameter
    groups than the optimizer, restoring it raises nothing: the
    [ValueError] is caught, three lines are printed, the first of them
    the warning, and the optimizer is left exactly as it was built. *)
Theorem optimizer_mismatch_is_tolerated
    (ck : checkpoint) (osd : optimizer_state) (o : optimizer) :
  optimizer_state_dict ck = Some osd ->
  length (osd_param_groups osd) <> length (param_groups o) ->
  load_optimizer_checkpoint (Some ck) o
  = ( [ Print "WARNING: Optimizer state_dict could not be loaded due to mismatch.";
        Print ("Checkpoint param groups: "
               +:+ PyInt.str (Z.of_nat (length (osd_param_groups osd))));
        Print ("Current optimizer param groups: "
               +:+ PyInt.str (Z.of_nat (length (param_groups o)))) ],
      inr o ).
Proof.
  intros Hosd Hlen. unfold load_optimizer_checkpoint, optimizer_load_state_dict.
  rewrite Hosd.
  assert ((length (param_groups o) =? length (osd_param_groups osd))%nat = false)
    as -> by (apply Nat.eqb_neq; congruence).
  reflexivity.
Qed.

Lemma optimizer_mismatch_is_tolerated_witness :
  load_optimizer_checkpoint (Some (Sample.record 7))
    (build_optimizer Sample.machine Sample.args)
  = ( [ Print "WARNING: Optimizer state_dict could not be loaded due to mismatch.";
        Print "Checkpoint param groups: 2";
        Print "Current optimizer param groups: 3" ],
      inr (build_optimizer Sample.machine Sample.args) ).
Proof.
  assert (Hlen : length (osd_param_groups
                          {| osd_state := ∅;
                             osd_param_groups :=
                               [ {| sg_params := [0];
                                    sg_weight_decay := PyFloat.half;
                                    sg_lr := (PyFloat.of_Z 1) |};
                                 {| sg_params := [1; 2];
                                    sg_weight_decay := PyFloat.zero;
                                    sg_lr := (PyFloat.of_Z 1) |} ] |})
                 <> length (param_groups
                              (build_optimizer Sample.machine Sample.args))).
  { simpl. lia. }
  exact (optimizer_mismatch_is_tolerated (Sample.record 7) _
           (build_optimizer Sample.machine Sample.args) eq_refl Hlen).
Defined.

(** ** Total training steps *)

(** C6.  Whenever [batch_size * world_size] is not zero, the total number
    of training steps is
    [floor(train_num_samples / (batch_size * world_size)) * num_epochs],
    and every process whose configuration has the same four values, its
    rank being irrelevant, computes the same total. *)
Theorem total_training_steps_formula (a : Args.t) :
  (Args.batch_size a * Args.world_size a)%Z <> 0%Z ->
  total_training_steps a = inr (spec_total_training_steps a)
  /\ forall a' : Args.t,
       Args.train_num_samples a' = Args.train_num_samples a ->
       Args.batch_size a' = Args.batch_size a ->
       Args.world_size a' = Args.world_size a ->
       Args.num_epochs a' = Args.num_epochs a ->
       total_training_steps a' = total_training_steps a.
Proof.
  intros Hnz. split.
  - unfold total_training_steps, spec_total_training_steps, PyInt.floordiv.
    apply Z.eqb_neq in Hnz. rewrite Hnz. by rewrite Zdiv_Qdiv.
  - intros a' Hn Hb Hw He. unfold total_training_steps.
    by rewrite Hn, Hb, Hw, He.
Qed.

Lemma total_training_steps_formula_witness :
  total_training_steps Sample.args = inr 78%Z
  /\ total_training_steps (Args.with_world_info Sample.args 3 3 1)
     = total_training_steps Sample.args.
Proof.
  destruct (total_training_steps_formula Sample.args) as [Hsteps Hsame].
  - vm_compute. discriminate.
  - split.
    + rewrite Hsteps. vm_compute. reflexivity.
    + apply Hsame; reflexivity.
Defined.

(** ** The epoch driver *)

Section EpochDriver.

Lemma for_epochs_run (es : list Z) (epoch_var : option Z) :
  for_epochs es epoch_var
  = ( es ≫= epoch_events,
      inr (match last es with Some e => Some e | None => epoch_var end) ).
Proof.
  revert epoch_var. induction es as [|e es IH]; intros epoch_var; [done|].
  cbn [for_epochs]. rewrite IH. cbn.
  f_equal. f_equal. destruct es as [|e' es]; [done|].
  rewrite last_cons_cons.
  destruct (last (e' :: es)) eqn:Hlast; [done|].
  by apply last_None in Hlast.
Qed.

Lemma saves_epoch_events (es : list Z) : saves (es ≫= epoch_events) = es.
Proof. induction es as [|e es IH]; [done|]. cbn. by rewrite <- IH at 2. Qed.

Lemma trainings_epoch_events (es : list Z) :
  trainings (es ≫= epoch_events) = es.
Proof. induction es as [|e es IH]; [done|]. cbn. by rewrite <- IH at 2. Qed.

Lemma range_empty lo hi : (hi <= lo)%Z -> PyInt.range lo hi = [].
Proof.
  intros Hle. unfold PyInt.range.
  by replace (Z.to_nat (hi - lo)) with 0%nat by lia.
Qed.

Lemma range_last lo hi :
  (lo < hi)%Z -> last (PyInt.range lo hi) = Some (hi - 1)%Z.
Proof.
  intros Hlt. unfold PyInt.range.
  destruct (Z.to_nat (hi - lo)) as [|n] eqn:Hn; [lia|].
  rewrite seq_S, List.map_app. cbn [List.map]. rewrite last_snoc.
  f_equal. lia.
Qed.

(** With at least one epoch to run, every epoch is trained and saved
    in order, and the last one is saved once more. *)
Lemma epoch_driver_runs resume num_epochs :
  (resume < num_epochs)%Z ->
  outcome (epoch_driver resume num_epochs) = inr tt
  /\ trainings (trace (epoch_driver resume num_epochs))
     = PyInt.range resume num_epochs
  /\ saves (trace (epoch_driver resume num_epochs))
     = PyInt.range resume num_epochs ++ [(num_epochs - 1)%Z].
Proof.
  intros Hlt. unfold epoch_driver. rewrite for_epochs_run.
  rewrite (range_last _ _ Hlt). cbn.
  rewrite !omap_app. cbn.
  fold (saves (PyInt.range resume num_epochs ≫= epoch_events)).
  fold (trainings (PyInt.range resume num_epochs ≫= epoch_events)).
  rewrite saves_epoch_events, trainings_epoch_events.
  by rewrite app_nil_r.
Qed.

End EpochDriver.

(** C8, on the code.  When the resume epoch has reached the number of
    epochs the loop body never runs, the variable [epoch] is never
    assigned, and the statement after the loop raises before
    [save_checkpoint] is called: nothing is saved. *)
Theorem final_save_needs_an_epoch (resume num_epochs : Z) :
  (num_epochs <= resume)%Z ->
  epoch_driver resume num_epochs = ([], inl (UnboundLocalError "epoch")).
Proof.
  intros Hle. unfold epoch_driver. by rewrite (range_empty _ _ Hle).
Qed.

Lemma final_save_needs_an_epoch_witness :
  epoch_driver 1 1 = ([], inl (UnboundLocalError "epoch")).
Proof. apply final_save_needs_an_epoch. lia. Defined.

(** A fresh run that is asked for zero epochs stops with the same error,
    without saving. *)
Lemma main_without_epochs :
  outcome (main Sample.fresh_machine (Sample.config 0 false false))
  = inl (UnboundLocalError "epoch")
  /\ saves (trace (main Sample.fresh_machine (Sample.config 0 false false)))
     = [].
Proof. vm_compute. split; reflexivity. Qed.

(** The same machine with one epoch to run: it is trained and saved, and
    saved once more after the loop. *)
Lemma main_first_run :
  outcome (main Sample.fresh_machine Sample.args) = inr tt
  /\ trainings (trace (main Sample.fresh_machine Sample.args)) = [0%Z]
  /\ saves (trace (main Sample.fresh_machine Sample.args)) = [0%Z; 0%Z].
Proof. vm_compute. repeat split. Qed.

(** ** Start-up *)

(** C9.  Asking for checkpoints to be saved to wandb without reporting to
    wandb stops [main] with a [ValueError] before anything else happens:
    no collaborator is called and nothing is printed. *)
Theorem wandb_flags_are_checked_first (w : world) (a : Args.t) :
  Args.save_checkpoints_to_wandb a = true ->
  Args.report_to_wandb a = false ->
  main w a
  = ([], inl (ValueError "save_checkpoints_to_wandb requires report_to_wandb")).
Proof.
  intros Hsave Hreport. unfold main, check_wandb_flags.
  by rewrite Hsave, Hreport.
Qed.

Lemma wandb_flags_are_checked_first_witness :
  main Sample.machine (Sample.config 1 false true)
  = ([], inl (ValueError "save_checkpoints_to_wandb requires report_to_wandb")).
Proof. apply wandb_flags_are_checked_first; reflexivity. Defined.

(** * Further properties *)

(** ** The rules of [get_grouped_params] *)

Section GroupingRules.

Implicit Types (named : list (string * parameter)) (p : parameter).

Lemma bucket_of_no_decay x :
  requires_grad x.2 = true -> is_gate_name x.1 = false ->
  (ndim x.2 =? 1)%nat || PyStr.endswith x.1 ".bias"
  || PyStr.contains "norm" (PyStr.lower x.1) = true ->
  bucket_of x = Some NoDecay.
Proof. intros Hg Hn Hr. unfold bucket_of. by rewrite Hg, Hn, Hr. Qed.

Lemma bucket_of_decay x :
  requires_grad x.2 = true -> is_gate_name x.1 = false ->
  (ndim x.2 =? 1)%nat || PyStr.endswith x.1 ".bias"
  || PyStr.contains "norm" (PyStr.lower x.1) = false ->
  bucket_of x = Some Decay.
Proof. intros Hg Hn Hr. unfold bucket_of. by rewrite Hg, Hn, Hr. Qed.

(** An entry of bucket [c] is held by the group of [c] and by no other. *)
Lemma held_by_its_group named base_lr wd gate_lr gate_lr_mult x c :
  NoDup ((fun e => pid e.2) <$> named) -> x ∈ named ->
  bucket_of x = Some c ->
  exists d nd g grp,
    get_grouped_params named base_lr wd gate_lr gate_lr_mult = [d; nd; g]
    /\ group_of c [d; nd; g] = Some grp
    /\ x.2 ∈ params grp
    /\ groups_holding x.2 [d; nd; g] = [grp].
Proof.
  intros Hnd Hin Hc. rewrite get_grouped_params_select.
  pose proof (fun c => held_by_select c _ x Hnd Hin) as Hheld.
  assert (Hmem : x.2 ∈ select c named).
  { apply elem_of_select. exists x.1. by destruct x. }
  destruct c; eexists _, _, _, _;
    (split; [reflexivity|]); (split; [reflexivity|]);
    (split; [exact Hmem|]);
    rewrite groups_holding_three; cbn [params]; held_cases Hheld Hc.
Qed.

Lemma lower_app s t : PyStr.lower (s +:+ t) = PyStr.lower s +:+ PyStr.lower t.
Proof.
  induction s as [|c s IH]; [done|].
  rewrite append_cons. cbn [PyStr.lower]. by rewrite append_cons, IH.
Qed.

Lemma contains_prefix sub t : PyStr.contains sub (sub +:+ t) = true.
Proof.
  destruct sub as [|c sub]; [rewrite append_nil; by destruct t|].
  rewrite append_cons. cbn [PyStr.contains].
  by rewrite <- append_cons, prefix_app.
Qed.

Lemma contains_app sub s t : PyStr.contains sub (s +:+ sub +:+ t) = true.
Proof.
  induction s as [|c s IH]; [rewrite append_nil; apply contains_prefix|].
  rewrite append_cons. cbn [PyStr.contains]. rewrite IH. apply orb_true_r.
Qed.

Lemma select_sublist c named : select c named `sublist_of` named.*2.
Proof.
  unfold select. induction named as [|x named IH]; [done|].
  cbn. destruct (decide _); by constructor.
Qed.

Lemma select_single c x :
  select c [x] = if decide (bucket_of x = Some c) then [x.2] else [].
Proof. unfold select. cbn. by destruct (decide _). Qed.

Lemma bucket_of_is_Some x : is_Some (bucket_of x) <-> requires_grad x.2 = true.
Proof.
  unfold bucket_of. destruct (requires_grad x.2); cbn [negb].
  - split; [done|]. intros _. destruct (is_gate_name x.1); [eauto|].
    destruct (_ || _ || _); eauto.
  - split; [by intros [? ?]|done].
Qed.

Lemma select_partition named :
  select Decay named ++ select NoDecay named ++ select Gate named
  ≡ₚ (List.filter trainable named).*2.
Proof.
  induction named as [|x named IH]; [done|].
  rewrite (select_cons Decay), (select_cons NoDecay), (select_cons Gate).
  rewrite !select_single. cbn [List.filter]. unfold trainable at 1.
  pose proof (bucket_of_is_Some x) as Hsome.
  destruct (bucket_of x) as [c|] eqn:Hb.
  - rewrite (proj1 Hsome) by eauto. rewrite fmap_cons.
    destruct c; repeat (destruct (decide _); try done); simpl; rewrite <- IH.
    + done.
    + symmetry. apply Permutation_middle.
    + rewrite !(app_assoc (select Decay named)).
      symmetry. apply Permutation_middle.
  - destruct (requires_grad x.2); [by destruct (proj2 Hsome eq_refl)|].
    repeat (destruct (decide _); try done).
Qed.

End GroupingRules.

(** X1.  A parameter that requires gradients, whose name has no gate
    suffix and that is one-dimensional, or whose name ends with [.bias],
    or whose lower-cased name contains [norm], is held by the second
    group only, the one with weight decay 0.0. *)
Theorem no_decay_rule
    (named : list (string * parameter)) base_lr wd gate_lr gate_lr_mult n p :
  NoDup ((fun e => pid e.2) <$> named) ->
  (n, p) ∈ named ->
  requires_grad p = true ->
  PyStr.endswith n "attn_gate" = false ->
  PyStr.endswith n "ff_gate" = false ->
  ndim p = 1%nat \/ PyStr.endswith n ".bias" = true
  \/ PyStr.contains "norm" (PyStr.lower n) = true ->
  exists d nd g,
    get_grouped_params named base_lr wd gate_lr gate_lr_mult = [d; nd; g]
    /\ p ∈ params nd
    /\ groups_holding p [d; nd; g] = [nd]
    /\ weight_decay nd = PyFloat.zero.
Proof.
  intros Hnd Hin Hg Hg1 Hg2 Hrule.
  assert (Hc : bucket_of (n, p) = Some NoDecay).
  { apply bucket_of_no_decay; [done|..]; simpl.
    - unfold is_gate_name. by rewrite Hg1, Hg2.
    - destruct Hrule as [-> | [-> | ->]];
        [done|by rewrite orb_true_r|by rewrite orb_true_r]. }
  destruct (held_by_its_group named base_lr wd gate_lr gate_lr_mult
              (n, p) NoDecay Hnd Hin Hc)
    as (d & nd & g & grp & Heq & Hgrp & Hmem & Hhold).
  simpl in Hgrp. injection Hgrp as <-.
  exists d, nd, g. repeat split; try done.
  rewrite get_grouped_params_select in Heq. by simplify_eq.
Qed.

Lemma no_decay_rule_witness :
  exists d nd g,
    get_grouped_params Sample.named (PyFloat.of_Z 1) PyFloat.half None
      gate_lr_mult_default = [d; nd; g]
    /\ Sample.p_norm ∈ params nd
    /\ groups_holding Sample.p_norm [d; nd; g] = [nd]
    /\ weight_decay nd = PyFloat.zero.
Proof.
  apply (no_decay_rule _ _ _ _ _
           "module.lang_encoder.layers.0.gated_cross_attn_layer.attn.Norm.weight").
  - apply (bool_decide_unpack _). vm_compute. exact I.
  - apply list_elem_of_further, list_elem_of_further, list_elem_of_here.
  - reflexivity.
  - reflexivity.
  - reflexivity.
  - right. right. vm_compute. reflexivity.
Defined.

(** X2.  A parameter that requires gradients and meets none of the
    conditions of the gate and no_decay rules is held by the first group
    only, the one that carries the configured weight decay. *)
Theorem decay_rule
    (named : list (string * parameter)) base_lr wd gate_lr gate_lr_mult n p :
  NoDup ((fun e => pid e.2) <$> named) ->
  (n, p) ∈ named ->
  requires_grad p = true ->
  PyStr.endswith n "attn_gate" = false ->
  PyStr.endswith n "ff_gate" = false ->
  ndim p <> 1%nat ->
  PyStr.endswith n ".bias" = false ->
  PyStr.contains "norm" (PyStr.lower n) = false ->
  exists d nd g,
    get_grouped_params named base_lr wd gate_lr gate_lr_mult = [d; nd; g]
    /\ p ∈ params d
    /\ groups_holding p [d; nd; g] = [d]
    /\ weight_decay d = wd.
Proof.
  intros Hnd Hin Hg Hg1 Hg2 Hdim Hbias Hnorm.
  assert (Hc : bucket_of (n, p) = Some Decay).
  { apply bucket_of_decay; [done|..]; simpl.
    - unfold is_gate_name. by rewrite Hg1, Hg2.
    - rewrite Hbias, Hnorm. apply Nat.eqb_neq in Hdim. by rewrite Hdim. }
  destruct (held_by_its_group named base_lr wd gate_lr gate_lr_mult
              (n, p) Decay Hnd Hin Hc)
    as (d & nd & g & grp & Heq & Hgrp & Hmem & Hhold).
  simpl in Hgrp. injection Hgrp as <-.
  exists d, nd, g. repeat split; try done.
  rewrite get_grouped_params_select in Heq. by simplify_eq.
Qed.

Lemma decay_rule_witness :
  exists d nd g,
    get_grouped_params Sample.named (PyFloat.of_Z 1) PyFloat.half None
      gate_lr_mult_default = [d; nd; g]
    /\ Sample.p_weight ∈ params d
    /\ groups_holding Sample.p_weight [d; nd; g] = [d]
    /\ weight_decay d = PyFloat.half.
Proof.
  apply (decay_rule _ _ _ _ _
           "module.lang_encoder.layers.0.gated_cross_attn_layer.ff.1.weight").
  - apply (bool_decide_unpack _). vm_compute. exact I.
  - apply list_elem_of_further, list_elem_of_here.
  - reflexivity.
  - reflexivity.
  - reflexivity.
  - discriminate.
  - reflexivity.
  - vm_compute. reflexivity.
Defined.

(** X3.  The normalisation marker is found in any letter case and at any
    place of the name: a trainable parameter whose name, gate suffix
    apart, contains a word that lower-cases to [norm] (such as [Norm] or
    [NORM]) is held by the no_decay group only, whatever its number of
    dimensions. *)
Theorem norm_marker_any_case
    (named : list (string * parameter)) base_lr wd gate_lr gate_lr_mult
    (front marker back : string) p :
  NoDup ((fun e => pid e.2) <$> named) ->
  (front +:+ marker +:+ back, p) ∈ named ->
  requires_grad p = true ->
  PyStr.lower marker = "norm" ->
  PyStr.endswith (front +:+ marker +:+ back) "attn_gate" = false ->
  PyStr.endswith (front +:+ marker +:+ back) "ff_gate" = false ->
  exists d nd g,
    get_grouped_params named base_lr wd gate_lr gate_lr_mult = [d; nd; g]
    /\ groups_holding p [d; nd; g] = [nd].
Proof.
  intros Hnd Hin Hg Hm Hg1 Hg2.
  assert (Hc : bucket_of (front +:+ marker +:+ back, p) = Some NoDecay).
  { apply bucket_of_no_decay; [done|..]; simpl.
    - unfold is_gate_name. by rewrite Hg1, Hg2.
    - rewrite !lower_app, Hm, contains_app. apply orb_true_r. }
  destruct (held_by_its_group named base_lr wd gate_lr gate_lr_mult
              _ NoDecay Hnd Hin Hc)
    as (d & nd & g & grp & Heq & Hgrp & Hmem & Hhold).
  simpl in Hgrp. injection Hgrp as <-. by exists d, nd, g.
Qed.

Lemma norm_marker_any_case_witness :
  exists d nd g,
    get_grouped_params Sample.named (PyFloat.of_Z 1) PyFloat.half None
      gate_lr_mult_default = [d; nd; g]
    /\ groups_holding Sample.p_norm [d; nd; g] = [nd].
Proof.
  apply (norm_marker_any_case _ _ _ _ _
           "module.lang_encoder.layers.0.gated_cross_attn_layer.attn."
           "Norm" ".weight").
  - apply (bool_decide_unpack _). vm_compute. exact I.
  - apply list_elem_of_further, list_elem_of_further, list_elem_of_here.
  - reflexivity.
  - reflexivity.
  - reflexivity.
  - reflexivity.
Defined.

(** X4.  Each of the three groups lists its parameters in the order in
    which the input lists them, and together the groups hold every input
    entry that requires gradients exactly as often as the input does. *)
Theorem groups_keep_order_and_count
    (named : list (string * parameter)) base_lr wd gate_lr gate_lr_mult :
  exists d nd g,
    get_grouped_params named base_lr wd gate_lr gate_lr_mult = [d; nd; g]
    /\ params d `sublist_of` named.*2
    /\ params nd `sublist_of` named.*2
    /\ params g `sublist_of` named.*2
    /\ params d ++ params nd ++ params g ≡ₚ (List.filter trainable named).*2
    /\ (length (params d) + length (params nd) + length (params g)
        = length (List.filter trainable named))%nat.
Proof.
  rewrite get_grouped_params_select. eexists _, _, _.
  split; [reflexivity|]. cbn [params].
  repeat split; try apply select_sublist.
  - apply select_partition.
  - pose proof (select_partition named) as Hperm.
    apply Permutation_length in Hperm.
    rewrite !length_app, length_fmap in Hperm. lia.
Qed.

(** X5.  The groups hold exactly the parameters of the entries that
    require gradients: [get_grouped_params] itself does not look at
    [exclude_from_optimizer], so that a flagged parameter is kept out
    only by the filter that [main] applies before the call. *)
Theorem groups_hold_the_trainable
    (named : list (string * parameter)) base_lr wd gate_lr gate_lr_mult p :
  (exists grp,
     grp ∈ get_grouped_params named base_lr wd gate_lr gate_lr_mult
     /\ p ∈ params grp)
  <-> exists n, (n, p) ∈ named /\ requires_grad p = true.
Proof.
  rewrite get_grouped_params_select. split.
  - intros (grp & Hgrp & Hp).
    assert (exists c, p ∈ select c named) as [c Hc].
    { repeat (apply elem_of_cons in Hgrp as [-> | Hgrp]; [eauto|]).
      by apply elem_of_nil in Hgrp. }
    apply elem_of_select in Hc as (n & Hin & Hb). exists n. split; [done|].
    unfold bucket_of in Hb. simpl in Hb. by destruct (requires_grad p).
  - intros (n & Hin & Hg).
    destruct (bucket_of_trainable (n, p) Hg) as [Hc|[Hc|Hc]]; eexists.
    + split; [apply list_elem_of_here|].
      cbn [params]. apply elem_of_select. eauto.
    + split; [apply list_elem_of_further, list_elem_of_here|].
      cbn [params]. apply elem_of_select. eauto.
    + split; [do 2 apply list_elem_of_further; apply list_elem_of_here|].
      cbn [params]. apply elem_of_select. eauto.
Qed.

(** ** Discovery on arbitrary directory contents *)

Section DiscoveryRules.

Implicit Types (l : list (Z * string)) (files : list string).

Lemma keyed_bad files f :
  f ∈ files -> epoch_key f = None ->
  keyed files = inl (ValueError "invalid literal for int() with base 10").
Proof.
  induction files as [|x files IH]; intros Hin Hf.
  - by apply elem_of_nil in Hin.
  - cbn [keyed]. destruct (epoch_key x) as [k|] eqn:Hx; [|done].
    apply elem_of_cons in Hin as [->|Hin]; [congruence|].
    by rewrite (IH Hin Hf).
Qed.

Lemma keyed_all files :
  (forall f, f ∈ files -> is_Some (epoch_key f)) ->
  exists l,
    keyed files = inr l /\ l.*2 = files
    /\ Forall (fun kx => epoch_key kx.2 = Some kx.1) l.
Proof.
  induction files as [|x files IH]; intros Hall.
  - by exists [].
  - destruct (Hall x) as [k Hk]; [apply list_elem_of_here|].
    destruct IH as (l & Hl & Hfiles & Hkeys).
    { intros f Hf. apply Hall. by apply list_elem_of_further. }
    exists ((k, x) :: l). cbn [keyed]. rewrite Hk, Hl.
    repeat split; [by rewrite fmap_cons, Hfiles|by constructor].
Qed.

Lemma sort_by_key_nonempty l : l <> [] -> sort_by_key l <> [].
Proof.
  intros Hl Heq. apply Hl, Permutation_nil_r. rewrite <- Heq.
  symmetry. apply sort_by_key_perm.
Qed.

Lemma last_elem_of {A} (l : list A) (d : A) : l <> [] -> List.last l d ∈ l.
Proof.
  intros Hl. rewrite (app_removelast_last d Hl) at 2.
  apply elem_of_app. right. apply list_elem_of_here.
Qed.

Lemma last_insert_by_key x l d :
  StronglySorted key_le l -> l <> [] ->
  List.last (insert_by_key x l) d
  = if (x.1 <=? (List.last l d).1)%Z then List.last l d else x.
Proof.
  induction 1 as [|y l Hl IH Hy]; intros Hne; [done|].
  cbn [insert_by_key].
  destruct l as [|z l].
  - cbn. by destruct (x.1 <=? y.1)%Z.
  - specialize (IH ltac:(done)).
    assert (Hylast : (y.1 <= (List.last (z :: l) d).1)%Z).
    { assert (Hin : List.last (z :: l) d ∈ z :: l) by (by apply last_elem_of).
      rewrite Forall_forall in Hy. by apply Hy. }
    destruct (Z.leb_spec x.1 y.1) as [Hxy|Hxy].
    + change (List.last (x :: y :: z :: l) d) with (List.last (z :: l) d).
      change (List.last (y :: z :: l) d) with (List.last (z :: l) d).
      destruct (Z.leb_spec x.1 (List.last (z :: l) d).1); [done|lia].
    + change (List.last (y :: z :: l) d) with (List.last (z :: l) d).
      rewrite <- IH.
      pose proof (sort_by_key_nonempty [x] ltac:(done)) as _.
      destruct (insert_by_key x (z :: l)) as [|u r] eqn:Hins; [|done].
      pose proof (insert_by_key_perm x (z :: l)) as Hp.
      rewrite Hins in Hp. by apply Permutation_nil_l in Hp.
Qed.

(** The last entry of the sorted list is the last entry of the input
    among those with the greatest key. *)
Lemma last_sorted_split l d :
  l <> [] ->
  exists l1 x l2,
    l = l1 ++ x :: l2
    /\ List.last (sort_by_key l) d = x
    /\ Forall (fun y => (y.1 <= x.1)%Z) l1
    /\ Forall (fun y => (y.1 < x.1)%Z) l2.
Proof.
  induction l as [|y l IH]; intros Hne; [done|].
  destruct l as [|z l].
  - exists [], y, []. by repeat split.
  - destruct IH as (l1 & x & l2 & Hl & Hlast & H1 & H2); [done|].
    change (sort_by_key (y :: z :: l))
      with (insert_by_key y (sort_by_key (z :: l))).
    rewrite last_insert_by_key;
      [|apply sort_by_key_sorted|by apply sort_by_key_nonempty].
    rewrite Hlast. destruct (Z.leb_spec y.1 x.1) as [Hyx|Hyx].
    + exists (y :: l1), x, l2. rewrite Hl.
      repeat split; [by constructor|done].
    + exists [], y, (z :: l). repeat split; [done|].
      rewrite Hl. apply Forall_app. split.
      * eapply Forall_impl; [exact H1|]. simpl. intros; lia.
      * constructor; [done|]. eapply Forall_impl; [exact H2|].
        simpl. intros; lia.
Qed.

(** A name whose part after the last underscore begins like a word has
    no key. *)
Lemma rstrip_keeps_head c s :
  PyInt.is_space c = false ->
  exists s', PyInt.rstrip (String c s) = String c s'.
Proof.
  intros Hc. cbn [PyInt.rstrip]. rewrite Hc.
  destruct (PyInt.rstrip s); eauto.
Qed.

Lemma epoch_key_word pre c stem ext :
  starts_no_number c = true ->
  PyStr.all_chars (PyStr.differs_from "_") stem = true ->
  PyStr.all_chars (PyStr.differs_from ".") stem = true ->
  PyStr.all_chars (PyStr.differs_from "_") ext = true ->
  epoch_key (pre +:+ String "_" (String c stem +:+ String "." ext)) = None.
Proof.
  unfold starts_no_number. intros Hc Hs1 Hs2 He.
  apply negb_true_iff in Hc.
  repeat (apply orb_false_iff in Hc as [Hc ?]).
  unfold epoch_key. rewrite last_item_split.
  - rewrite first_item_split.
    + unfold PyInt.int. cbn [PyInt.lstrip].
      assert (PyInt.is_space c = false) as Hsp by done. rewrite Hsp.
      destruct (rstrip_keeps_head c stem Hsp) as [s' ->].
      assert (Ascii.eqb c "-" = false) as Hm by done.
      assert (Ascii.eqb c "+" = false) as Hp by done.
      assert (Ascii.eqb c "_" = false) as Hu by done.
      assert (PyInt.digits 0 false (String c s') = None) as Hd.
      { cbn [PyInt.digits]. by rewrite Hc, Hu. }
      destruct (Ascii.eqb_spec c "-") as [->|]; [done|].
      destruct (Ascii.eqb_spec c "+") as [->|]; [done|].
      destruct c as [[] [] [] [] [] [] [] []]; try exact Hd; done.
    + cbn [PyStr.all_chars]. rewrite Hs2.
      unfold PyStr.differs_from at 1.
      assert (Ascii.eqb c "." = false) as -> by done. done.
  - rewrite all_chars_app. cbn [PyStr.all_chars].
    rewrite Hs1, He. unfold PyStr.differs_from at 1 2.
    assert (Ascii.eqb c "_" = false) as -> by done. done.
Qed.

End DiscoveryRules.

(** X6.  One file in the run directory whose name does not carry an
    integer where the epoch is expected (between the last underscore and
    the next dot, as in [checkpoint_best.pt]) makes discovery raise a
    [ValueError], whatever other checkpoints the directory holds; nothing
    is printed and no resume point is chosen. *)
Theorem discovery_rejects_other_names (w : world) (a : Args.t) f :
  Args.resume_from_checkpoint a = None ->
  fs_exists w (checkpoint_dir a) = true ->
  f ∈ fs_glob w (checkpoint_pattern a) ->
  epoch_key f = None ->
  discover w a
  = ([], inl (ValueError "invalid literal for int() with base 10")).
Proof.
  intros Hnone Hdir Hin Hf. unfold discover.
  change (path_join checkpoint_base_path (Args.run_name a))
    with (checkpoint_dir a).
  change (path_join (checkpoint_dir a) "checkpoint_*.pt")
    with (checkpoint_pattern a).
  rewrite Hnone, Hdir. cbn [andb]. rewrite bool_decide_true by done.
  destruct (fs_glob w (checkpoint_pattern a)) as [|x files] eqn:Hglob.
  { by apply elem_of_nil in Hin. }
  cbn [length Nat.eqb]. unfold latest_checkpoint.
  by rewrite (keyed_bad _ f Hin Hf).
Qed.

Lemma discovery_rejects_other_names_witness :
  discover Cases.cluttered_machine Sample.args
  = ([], inl (ValueError "invalid literal for int() with base 10")).
Proof.
  apply (discovery_rejects_other_names _ _
           ((Sample.run_dir +:+ "/checkpoint")
            +:+ String "_" (String "b" "est" +:+ String "." "pt"))).
  - reflexivity.
  - reflexivity.
  - vm_compute. apply list_elem_of_further, list_elem_of_here.
  - apply epoch_key_word; reflexivity.
Defined.

(** X7.  With no resume path given, a run directory that exists and a
    non-empty listing of paths of at most 4096 characters (so that no
    number is too long for [int]): when every globbed name carries an
    integer, discovery chooses the file with the greatest one, and
    among files with equal numbers the one that the directory listing
    gives last; it prints which file it found and raises nothing. *)
Theorem discovery_picks_last_greatest (w : world) (a : Args.t) :
  Args.resume_from_checkpoint a = None ->
  fs_exists w (checkpoint_dir a) = true ->
  fs_glob w (checkpoint_pattern a) <> [] ->
  (forall f, f ∈ fs_glob w (checkpoint_pattern a) ->
     (String.length f <= 4096)%nat) ->
  (forall f, f ∈ fs_glob w (checkpoint_pattern a) -> is_Some (epoch_key f)) ->
  exists before f after k,
    fs_glob w (checkpoint_pattern a) = before ++ f :: after
    /\ epoch_key f = Some k
    /\ (forall f' k', f' ∈ before -> epoch_key f' = Some k' -> (k' <= k)%Z)
    /\ (forall f' k', f' ∈ after -> epoch_key f' = Some k' -> (k' < k)%Z)
    /\ discover w a = ([Print (found_message a f)], inr (Some f)).
Proof.
  intros Hnone Hdir Hne _ Hall.
  destruct (keyed_all _ Hall) as (l & Hl & Hfiles & Hkeys).
  assert (Hlne : l <> []) by (intros ->; by rewrite <- Hfiles in Hne).
  destruct (last_sorted_split l (0%Z, "") Hlne)
    as (l1 & x & l2 & Hsplit & Hlast & H1 & H2).
  exists l1.*2, x.2, l2.*2, x.1.
  rewrite Hsplit in Hkeys.
  apply Forall_app in Hkeys as [Hk1 Hk2].
  apply Forall_cons in Hk2 as [Hx Hk2].
  split; [by rewrite <- Hfiles, Hsplit, fmap_app, fmap_cons|].
  split; [done|]. split; [|split].
  - intros f' k' (y & -> & Hy)%list_elem_of_fmap Hk'.
    rewrite Forall_forall in Hk1, H1.
    rewrite (Hk1 y Hy) in Hk'. injection Hk' as <-. by apply H1.
  - intros f' k' (y & -> & Hy)%list_elem_of_fmap Hk'.
    rewrite Forall_forall in Hk2, H2.
    rewrite (Hk2 y Hy) in Hk'. injection Hk' as <-. by apply H2.
  - unfold discover.
    change (path_join checkpoint_base_path (Args.run_name a))
      with (checkpoint_dir a).
    change (path_join (checkpoint_dir a) "checkpoint_*.pt")
      with (checkpoint_pattern a).
    rewrite Hnone, Hdir. cbn [andb]. rewrite bool_decide_true by done.
    destruct (fs_glob w (checkpoint_pattern a)) as [|x0 files]; [done|].
    cbn [length Nat.eqb]. unfold latest_checkpoint. rewrite Hl.
    change "" with ((0%Z, "") : Z * string).2.
    rewrite last_map_snd, Hlast. reflexivity.
Qed.

Lemma discovery_picks_last_greatest_witness :
  exists before f after k,
    fs_glob Cases.padded_machine (checkpoint_pattern Sample.args)
    = before ++ f :: after
    /\ epoch_key f = Some k
    /\ (forall f' k', f' ∈ before -> epoch_key f' = Some k' -> (k' <= k)%Z)
    /\ (forall f' k', f' ∈ after -> epoch_key f' = Some k' -> (k' < k)%Z)
    /\ discover Cases.padded_machine Sample.args
       = ([Print (found_message Sample.args f)], inr (Some f)).
Proof.
  apply discovery_picks_last_greatest.
  - reflexivity.
  - reflexivity.
  - discriminate.
  - intros f Hf. vm_compute in Hf.
    repeat (apply elem_of_cons in Hf as [-> | Hf];
            [apply Nat.leb_le; vm_compute; reflexivity|]).
    by apply elem_of_nil in Hf.
  - intros f Hf. vm_compute in Hf.
    repeat (apply elem_of_cons in Hf as [-> | Hf]; [by vm_compute; eauto|]).
    by apply elem_of_nil in Hf.
Defined.

(** X8.  The sort key of the path that the checkpoint of epoch [e] has
    in a directory is [e], whatever the directory is called: underscores
    and dots in the base path or in the run name do not disturb it. *)
Theorem checkpoint_file_key (dir : string) (e : nat) :
  epoch_key (checkpoint_file dir e) = Some (Z.of_nat e).
Proof. apply epoch_key_checkpoint_file. Qed.

(** ** Loading on arbitrary records *)

Lemma load_checkpoint_trace w a model :
  trace (load_checkpoint w a model)
  = match Args.resume_from_checkpoint a with
    | Some path => loading_message a path
    | None => []
    end.
Proof.
  unfold load_checkpoint, loading_message, torch_load, getattr_fsdp.
  destruct (Args.resume_from_checkpoint a) as [path|]; [|done].
  rewrite trace_bind.
  assert (Hwhen : forall s, outcome (when (Args.rank a =? 0)%Z (print s)) = inr tt)
    by (intros s; by destruct (Args.rank a =? 0)%Z).
  rewrite Hwhen.
  assert (Hrest : forall m : M loaded,
            trace m = [] ->
            trace (when (Args.rank a =? 0)%Z
                     (print ("Loading checkpoint from " +:+ path))) ++ trace m
            = if (Args.rank a =? 0)%Z
              then [Print ("Loading checkpoint from " +:+ path)] else []).
  { intros m ->. by destruct (Args.rank a =? 0)%Z. }
  apply Hrest.
  destruct (fs_checkpoint w path) as [ck|]; [|done].
  rewrite bind_ret.
  destruct (Args.fsdp a) as [b|]; [|done].
  rewrite bind_ret.
  destruct (negb b || (Args.rank a =? 0)%Z); [|done].
  by destruct (load_state_dict_nonstrict _ _).
Qed.

(** X9.  Reading a checkpoint prints one line, and only on rank 0; this
    is all that loading ever prints, whether it succeeds or raises, and a
    run without a resume point prints nothing here. *)
Theorem load_checkpoint_prints_on_rank_0
    (w : world) (a : Args.t) (model : gmap string tensor) :
  trace (load_checkpoint w a model)
  = match Args.resume_from_checkpoint a with
    | Some path => loading_message a path
    | None => []
    end.
Proof. apply load_checkpoint_trace. Qed.

(** X10.  As long as the namespace has no attribute [fsdp], which no
    parser argument provides, every resume from a readable checkpoint
    stops with an [AttributeError] when the guard of the weight load is
    evaluated: the weights are not loaded and no resume epoch is
    returned. *)
Theorem resume_needs_fsdp_attribute
    (w : world) (a : Args.t) path ck (model : gmap string tensor) :
  Args.resume_from_checkpoint a = Some path ->
  fs_checkpoint w path = Some ck ->
  Args.fsdp a = None ->
  load_checkpoint w a model
  = ( loading_message a path,
      inl (AttributeError "'Namespace' object has no attribute 'fsdp'") ).
Proof.
  intros Hpath Hfile Hfsdp.
  unfold load_checkpoint, loading_message, torch_load, getattr_fsdp.
  rewrite Hpath, Hfile, Hfsdp. by destruct (Args.rank a =? 0)%Z.
Qed.

Lemma resume_needs_fsdp_attribute_witness :
  load_checkpoint Sample.machine Cases.resuming_without_fsdp
    (model_state Sample.machine)
  = ( [Print ("Loading checkpoint from " +:+ checkpoint_file Sample.run_dir 7)],
      inl (AttributeError "'Namespace' object has no attribute 'fsdp'") ).
Proof.
  exact (resume_needs_fsdp_attribute Sample.machine
           Cases.resuming_without_fsdp (checkpoint_file Sample.run_dir 7)
           (Sample.record 7) (model_state Sample.machine)
           eq_refl eq_refl eq_refl).
Defined.

Section Renaming.

Implicit Types (msd : list (string * tensor)).

Lemma rename_keys_snoc msd k v :
  rename_keys (msd ++ [(k, v)]) = <[rename_key k := v]> (rename_keys msd).
Proof. unfold rename_keys. by rewrite foldl_app. Qed.

Lemma rename_key_wrapped n k :
  PyStr.contains "module." k = false -> rename_key (wrapped n k) = k.
Proof.
  intros Hk. induction n as [|n IH]; [by apply rename_key_plain|].
  cbn [wrapped]. unfold rename_key in *.
  rewrite (replace_head "odule." "" "m" (wrapped n k)).
  by rewrite append_nil.
Qed.

End Renaming.

(** X11.  The renamed dictionary holds, under a key, the tensor of the
    last saved entry that is renamed to this key: when two saved keys
    collapse to one name the later entry silently replaces the earlier
    one, and a name that no saved key is renamed to is absent. *)
Theorem rename_keys_last_wins (msd : list (string * tensor)) (j : string) :
  rename_keys msd !! j
  = snd <$> last (filter (fun kv => rename_key kv.1 = j) msd).
Proof.
  induction msd as [|[k v] msd IH] using rev_ind; [done|].
  rewrite rename_keys_snoc, filter_app, filter_cons, filter_nil.
  cbn [fst]. destruct (decide (rename_key k = j)) as [<-|Hne].
  - by rewrite lookup_insert_eq, last_snoc.
  - by rewrite lookup_insert_ne, app_nil_r.
Qed.

(** X12.  However many times the saved model was wrapped, a key whose own
    name does not contain ["module."] gets back this name: all the
    leading ["module."] prefixes are removed. *)
Theorem rename_key_unwraps (n : nat) (k : string) :
  PyStr.contains "module." k = false ->
  rename_key (wrapped n k) = k.
Proof. apply rename_key_wrapped. Qed.

Lemma rename_key_unwraps_witness :
  rename_key (wrapped 2 "lang_encoder.fc.weight") = "lang_encoder.fc.weight".
Proof. apply rename_key_unwraps. reflexivity. Defined.

(** ** Total training steps *)

(** X13.  With a positive global batch [batch_size * world_size], the
    total is [q * num_epochs] for the number [q] of whole global batches
    that fit in [train_num_samples]; a sample budget below one global
    batch therefore gives zero training steps. *)
Theorem total_training_steps_bounds (a : Args.t) :
  (0 < Args.batch_size a * Args.world_size a)%Z ->
  exists q,
    total_training_steps a = inr (q * Args.num_epochs a)%Z
    /\ (q * (Args.batch_size a * Args.world_size a)
        <= Args.train_num_samples a
        < (q + 1) * (Args.batch_size a * Args.world_size a))%Z
    /\ ((0 <= Args.train_num_samples a
         < Args.batch_size a * Args.world_size a)%Z ->
        total_training_steps a = inr 0%Z).
Proof.
  intros Hpos. unfold total_training_steps, PyInt.floordiv.
  set (B := (Args.batch_size a * Args.world_size a)%Z) in *.
  set (N := Args.train_num_samples a).
  assert ((B =? 0)%Z = false) as -> by (apply Z.eqb_neq; lia).
  exists (N / B)%Z. split; [done|]. split.
  - pose proof (Z.mul_div_le N B Hpos).
    pose proof (Z.mul_succ_div_gt N B Hpos). lia.
  - intros Hsmall. by rewrite Z.div_small.
Qed.

Lemma total_training_steps_bounds_witness :
  exists q,
    total_training_steps Sample.args = inr (q * 1)%Z
    /\ (q * (128 * 1) <= 10000 < (q + 1) * (128 * 1))%Z
    /\ ((0 <= 10000 < 128 * 1)%Z -> total_training_steps Sample.args = inr 0%Z).
Proof. apply (total_training_steps_bounds Sample.args). reflexivity. Defined.

(** ** The epoch driver, in general *)

Section EpochSets.

Lemma elem_of_range lo hi e :
  e ∈ PyInt.range lo hi <-> (lo <= e < hi)%Z.
Proof.
  unfold PyInt.range. rewrite list_elem_of_In, in_map_iff. split.
  - intros (i & <- & Hi). apply in_seq in Hi. lia.
  - intros He. exists (Z.to_nat (e - lo)). split; [lia|].
    apply in_seq. lia.
Qed.

Lemma range_sorted lo hi : StronglySorted Z.lt (PyInt.range lo hi).
Proof.
  unfold PyInt.range. generalize (Z.to_nat (hi - lo)) as n. intros n.
  generalize 0%nat as s. induction n as [|n IH]; intros s; [constructor|].
  cbn [seq List.map]. constructor; [apply IH|].
  apply Forall_forall. intros e He.
  apply list_elem_of_In, in_map_iff in He as (i & <- & Hi).
  apply in_seq in Hi. lia.
Qed.

Lemma epoch_driver_trace resume num_epochs :
  trace (epoch_driver resume num_epochs)
  = (PyInt.range resume num_epochs ≫= epoch_events)
    ++ (SaveCheckpoint <$> final_save resume num_epochs).
Proof.
  unfold final_save. destruct (Z.ltb_spec resume num_epochs) as [Hlt|Hge].
  - unfold epoch_driver. rewrite for_epochs_run, (range_last _ _ Hlt).
    reflexivity.
  - unfold epoch_driver. rewrite for_epochs_run, (range_empty _ _ Hge).
    reflexivity.
Qed.

Lemma trainings_app tr1 tr2 : trainings (tr1 ++ tr2) = trainings tr1 ++ trainings tr2.
Proof. apply omap_app. Qed.

Lemma saves_app tr1 tr2 : saves (tr1 ++ tr2) = saves tr1 ++ saves tr2.
Proof. apply omap_app. Qed.

Lemma saves_fmap (es : list Z) : saves (SaveCheckpoint <$> es) = es.
Proof. induction es as [|e es IH]; [done|]. cbn. by rewrite <- IH at 2. Qed.

Lemma trainings_fmap_save (es : list Z) : trainings (SaveCheckpoint <$> es) = [].
Proof. induction es as [|e es IH]; [done|]. exact IH. Qed.

Lemma epoch_driver_trainings resume num_epochs :
  trainings (trace (epoch_driver resume num_epochs))
  = PyInt.range resume num_epochs.
Proof.
  rewrite epoch_driver_trace, trainings_app, trainings_epoch_events.
  by rewrite trainings_fmap_save, app_nil_r.
Qed.

Lemma epoch_driver_saves resume num_epochs :
  saves (trace (epoch_driver resume num_epochs))
  = PyInt.range resume num_epochs ++ final_save resume num_epochs.
Proof.
  rewrite epoch_driver_trace, saves_app, saves_epoch_events.
  by rewrite saves_fmap.
Qed.

End EpochSets.

(** X14.  For any resume epoch and any number of epochs, the epoch driver
    trains exactly the epochs [e] with
    [resume_from_epoch <= e < num_epochs], each once and in increasing
    order, runs the five steps of an epoch in the order
    feature loader, dataset, [set_epoch], training pass, save, and never
    saves an epoch that it has not trained. *)
Theorem epoch_driver_trains_the_range (resume num_epochs : Z) :
  let tr := trace (epoch_driver resume num_epochs) in
  tr = (PyInt.range resume num_epochs ≫= epoch_events)
       ++ (SaveCheckpoint <$> final_save resume num_epochs)
  /\ (forall e, e ∈ trainings tr <-> (resume <= e < num_epochs)%Z)
  /\ StronglySorted Z.lt (trainings tr)
  /\ (forall e, e ∈ saves tr -> e ∈ trainings tr).
Proof.
  intros tr. subst tr.
  rewrite epoch_driver_trainings, epoch_driver_saves.
  split; [apply epoch_driver_trace|].
  split; [apply elem_of_range|].
  split; [apply range_sorted|].
  intros e [He|He]%elem_of_app; [done|].
  unfold final_save in He. apply elem_of_range.
  destruct (Z.ltb_spec resume num_epochs); [|by apply elem_of_nil in He].
  apply list_elem_of_singleton in He. lia.
Qed.

(** ** [main] as start-up followed by the epoch driver *)

Section MainStructure.

Lemma bind_bind {A B C} (m : M A) (K : A -> M C) (K' : A -> M B) (D : B -> M C) :
  (forall x, K x = bind (K' x) D) -> bind m K = bind (bind m K') D.
Proof.
  intros HK. destruct m as [tr [e|x]]; [done|].
  unfold bind at 1 3. rewrite HK.
  destruct (K' x) as [tr' [e|y]]; [done|].
  unfold bind. destruct (D y) as [tr'' r]. by rewrite app_assoc.
Qed.

Lemma main_startup (w : world) (a : Args.t) :
  main w a = bind (startup w a) (fun r => epoch_driver r (Args.num_epochs a)).
Proof.
  unfold main, startup.
  do 2 (apply bind_bind; intros ?).
  destruct (world_info_from_env w) as [[lr r] ws].
  repeat (apply bind_bind; intros ?).
  by rewrite bind_ret.
Qed.

Lemma startup_only_bind {A B} (m : M A) (k : A -> M B) :
  startup_only (trace m) -> (forall x, startup_only (trace (k x))) ->
  startup_only (trace (bind m k)).
Proof.
  intros Hm Hk. rewrite trace_bind. apply Forall_app. split; [done|].
  destruct (outcome m); [constructor|apply Hk].
Qed.

Lemma startup_only_when c ev :
  is_epoch_event ev = false -> startup_only (trace (when c (emit ev))).
Proof. intros Hev. destruct c; repeat constructor. done. Qed.

Lemma startup_only_add_new_tokens w a :
  startup_only (trace (add_new_tokens w a)).
Proof.
  unfold add_new_tokens. destruct (Args.new_tokens a); [constructor|].
  apply startup_only_bind.
  - induction (tokens_to_add w) as [|t ts IH]; [constructor|].
    cbn [foldr]. apply startup_only_bind; [by repeat constructor|done].
  - intros _. apply startup_only_bind; [by apply startup_only_when|].
    intros _. destruct (embedding_located w); by repeat constructor.
Qed.

Lemma startup_only_discover w a : startup_only (trace (discover w a)).
Proof.
  unfold discover. destruct (_ && _); [|constructor].
  destruct (_ =? _)%nat.
  - apply startup_only_bind; [by repeat constructor|]. intros; constructor.
  - apply startup_only_bind; [constructor|].
    intros f. apply startup_only_bind; [by repeat constructor|].
    intros; constructor.
Qed.

Lemma startup_only_load_checkpoint w a model :
  startup_only (trace (load_checkpoint w a model)).
Proof.
  rewrite load_checkpoint_trace. unfold loading_message.
  destruct (Args.resume_from_checkpoint a); [|constructor].
  destruct (_ =? _)%Z; by repeat constructor.
Qed.

Lemma load_optimizer_checkpoint_returns ck o :
  exists o', outcome (load_optimizer_checkpoint ck o) = inr o'.
Proof.
  unfold load_optimizer_checkpoint, optimizer_load_state_dict.
  destruct ck as [c|]; [|by eexists].
  destruct (optimizer_state_dict c) as [osd|]; [|by eexists].
  destruct (negb _); [by eexists|].
  destruct (existsb _ _); by eexists.
Qed.

Lemma startup_only_load_optimizer ck o :
  startup_only (trace (load_optimizer_checkpoint ck o)).
Proof.
  unfold load_optimizer_checkpoint, optimizer_load_state_dict.
  destruct ck as [c|]; [|constructor].
  destruct (optimizer_state_dict c) as [osd|]; [|constructor].
  destruct (negb _); [by repeat constructor|].
  destruct (existsb _ _); by repeat constructor.
Qed.

Lemma random_seed_ok seed rank :
  seed_ok (seed + rank) ->
  random_seed seed rank
  = ([TorchManualSeed (seed + rank); NpRandomSeed (seed + rank);
      RandomSeed (seed + rank)], inr tt).
Proof.
  unfold seed_ok, random_seed, torch_manual_seed, np_random_seed.
  intros Hs.
  replace (- 2 ^ 63 <=? seed + rank)%Z with true by (symmetry; apply Z.leb_le; lia).
  replace (seed + rank <=? 2 ^ 64 - 1)%Z with true by (symmetry; apply Z.leb_le; lia).
  replace (0 <=? seed + rank)%Z with true by (symmetry; apply Z.leb_le; lia).
  replace (seed + rank <=? 2 ^ 32 - 1)%Z with true by (symmetry; apply Z.leb_le; lia).
  reflexivity.
Qed.

Lemma startup_only_random_seed seed rank :
  startup_only (trace (random_seed seed rank)).
Proof.
  unfold random_seed, torch_manual_seed, np_random_seed.
  apply startup_only_bind.
  { destruct (_ && _); by repeat constructor. }
  intros _. apply startup_only_bind.
  { destruct (_ && _); by repeat constructor. }
  intros _. by repeat constructor.
Qed.

Lemma startup_only_startup w a : startup_only (trace (startup w a)).
Proof.
  unfold startup.
  apply startup_only_bind.
  { unfold check_wandb_flags. destruct (_ && _); constructor. }
  intros _. apply startup_only_bind; [by apply startup_only_when|].
  intros _. destruct (world_info_from_env w) as [[lr r] ws].
  apply startup_only_bind; [by repeat constructor|intros _].
  apply startup_only_bind; [apply startup_only_random_seed|intros _].
  apply startup_only_bind; [by repeat constructor|intros _].
  apply startup_only_bind; [apply startup_only_add_new_tokens|intros _].
  apply startup_only_bind; [apply startup_only_random_seed|intros _].
  apply startup_only_bind; [by repeat constructor|intros _].
  apply startup_only_bind; [by apply startup_only_when|intros _].
  apply startup_only_bind; [apply startup_only_discover|intros resume].
  apply startup_only_bind; [apply startup_only_load_checkpoint|intros ld].
  apply startup_only_bind; [by repeat constructor|intros _].
  apply startup_only_bind; [by apply startup_only_when|intros _].
  apply startup_only_bind; [apply startup_only_load_optimizer|intros opt].
  apply startup_only_bind; [constructor|intros total].
  apply startup_only_bind.
  { destruct (_ =? _)%Z; by repeat constructor. }
  intros _. apply startup_only_bind; [by repeat constructor|intros _].
  constructor.
Qed.

Lemma startup_only_quiet tr :
  startup_only tr -> trainings tr = [] /\ saves tr = [].
Proof.
  induction 1 as [|ev tr Hev _ [IH1 IH2]]; [done|].
  unfold trainings, saves in *. cbn [omap list_omap].
  rewrite IH1, IH2. by destruct ev.
Qed.

(** The trained and the saved epochs of a run, from the outcome of
    start-up. *)
Lemma main_trainings w a :
  trainings (trace (main w a))
  = match outcome (startup w a) with
    | inl _ => []
    | inr r => PyInt.range r (Args.num_epochs a)
    end.
Proof.
  rewrite main_startup, trace_bind, trainings_app.
  destruct (startup_only_quiet _ (startup_only_startup w a)) as [-> _].
  destruct (outcome (startup w a)); [done|apply epoch_driver_trainings].
Qed.

Lemma main_saves w a :
  saves (trace (main w a))
  = match outcome (startup w a) with
    | inl _ => []
    | inr r => PyInt.range r (Args.num_epochs a)
                 ++ final_save r (Args.num_epochs a)
    end.
Proof.
  rewrite main_startup, trace_bind, saves_app.
  destruct (startup_only_quiet _ (startup_only_startup w a)) as [_ ->].
  destruct (outcome (startup w a)); [done|apply epoch_driver_saves].
Qed.

Lemma main_outcome w a :
  outcome (main w a)
  = match outcome (startup w a) with
    | inl e => inl e
    | inr r => outcome (epoch_driver r (Args.num_epochs a))
    end.
Proof. by rewrite main_startup, outcome_bind. Qed.

Lemma outcome_bind_inr {A B} (m : M A) (k : A -> M B) y :
  outcome (bind m k) = inr y ->
  exists x, outcome m = inr x /\ outcome (k x) = inr y.
Proof.
  rewrite outcome_bind. destruct (outcome m) as [e|x]; [done|eauto].
Qed.

End MainStructure.

Section StartupOutcome.

Lemma outcome_seq {A B} (m : M A) (k : A -> M B) x :
  outcome m = inr x -> outcome (bind m k) = outcome (k x).
Proof. intros Hm. by rewrite outcome_bind, Hm. Qed.

Lemma outcome_when c ev : outcome (when c (emit ev)) = inr tt.
Proof. by destruct c. Qed.

Lemma outcome_when_print c s : outcome (when c (print s)) = inr tt.
Proof. by destruct c. Qed.

(** What a successful start-up has gone through. *)
Lemma startup_returns w a r0 :
  outcome (startup w a) = inr r0 ->
  exists resume ld total,
    outcome (check_wandb_flags a) = inr tt
    /\ outcome (add_new_tokens w (launched w a)) = inr tt
    /\ outcome (discover w (launched w a)) = inr resume
    /\ outcome (load_checkpoint w (Args.with_resume (launched w a) resume)
                  (model_state w)) = inr ld
    /\ total_training_steps (Args.with_resume (launched w a) resume)
       = inr total
    /\ r0 = resume_from_epoch ld.
Proof.
  unfold startup, launched, env_rank, env_world_size.
  intros H.
  apply outcome_bind_inr in H as ([] & Hcheck & H).
  apply outcome_bind_inr in H as ([] & _ & H).
  destruct (world_info_from_env w) as [[lr r] ws]. cbn [fst snd].
  do 3 apply outcome_bind_inr in H as ([] & _ & H).
  apply outcome_bind_inr in H as ([] & Htokens & H).
  do 3 apply outcome_bind_inr in H as ([] & _ & H).
  apply outcome_bind_inr in H as (resume & Hdiscover & H).
  apply outcome_bind_inr in H as (ld & Hload & H).
  do 2 apply outcome_bind_inr in H as ([] & _ & H).
  apply outcome_bind_inr in H as (opt & _ & H).
  apply outcome_bind_inr in H as (total & Htotal & H).
  do 2 apply outcome_bind_inr in H as ([] & _ & H).
  exists resume, ld, total. repeat split; try done.
  unfold ret, outcome in H. cbn in H. congruence.
Qed.

Lemma startup_succeeds w a resume ld total :
  seed_ok (Args.seed a) ->
  seed_ok (Args.seed a + env_rank w) ->
  outcome (check_wandb_flags a) = inr tt ->
  outcome (add_new_tokens w (launched w a)) = inr tt ->
  outcome (discover w (launched w a)) = inr resume ->
  outcome (load_checkpoint w (Args.with_resume (launched w a) resume)
             (model_state w)) = inr ld ->
  total_training_steps (Args.with_resume (launched w a) resume) = inr total ->
  outcome (startup w a) = inr (resume_from_epoch ld).
Proof.
  unfold startup, launched, env_rank, env_world_size.
  intros Hseed Hseed' Hcheck Htokens Hdiscover Hload Htotal.
  rewrite (outcome_seq _ _ tt Hcheck).
  rewrite (outcome_seq _ _ tt (outcome_when _ _)).
  destruct (world_info_from_env w) as [[lr r] ws]. cbn [fst snd] in *.
  cbn [Args.seed Args.rank Args.with_world_info].
  rewrite (outcome_seq _ _ tt) by done.
  rewrite (outcome_seq _ _ tt)
    by (by rewrite random_seed_ok by (by rewrite Z.add_0_r)).
  rewrite (outcome_seq _ _ tt) by done.
  rewrite (outcome_seq _ _ tt Htokens).
  rewrite (outcome_seq _ _ tt) by (by rewrite random_seed_ok).
  rewrite (outcome_seq _ _ tt) by done.
  rewrite (outcome_seq _ _ tt (outcome_when _ _)).
  rewrite (outcome_seq _ _ resume Hdiscover).
  rewrite (outcome_seq _ _ ld Hload).
  rewrite (outcome_seq _ _ tt) by done.
  rewrite (outcome_seq _ _ tt (outcome_when _ _)).
  destruct (load_optimizer_checkpoint_returns (loaded_checkpoint ld)
              (build_optimizer w
                 (Args.with_resume (Args.with_world_info a lr r ws) resume)))
    as [opt Hopt].
  rewrite (outcome_seq _ _ opt Hopt).
  rewrite (outcome_seq _ _ total) by (by rewrite <- Htotal).
  rewrite (outcome_seq _ _ tt (outcome_when_print _ _)).
  rewrite (outcome_seq _ _ tt) by done.
  done.
Qed.

(** A start-up that gets as far as the load and fails there. *)
Lemma startup_stops_at_load w a resume e :
  seed_ok (Args.seed a) ->
  seed_ok (Args.seed a + env_rank w) ->
  outcome (check_wandb_flags a) = inr tt ->
  outcome (add_new_tokens w (launched w a)) = inr tt ->
  outcome (discover w (launched w a)) = inr resume ->
  outcome (load_checkpoint w (Args.with_resume (launched w a) resume)
             (model_state w)) = inl e ->
  outcome (startup w a) = inl e.
Proof.
  unfold startup, launched, env_rank, env_world_size.
  intros Hseed Hseed' Hcheck Htokens Hdiscover Hload.
  rewrite (outcome_seq _ _ tt Hcheck).
  rewrite (outcome_seq _ _ tt (outcome_when _ _)).
  destruct (world_info_from_env w) as [[lr r] ws]. cbn [fst snd] in *.
  cbn [Args.seed Args.rank Args.with_world_info].
  rewrite (outcome_seq _ _ tt) by done.
  rewrite (outcome_seq _ _ tt)
    by (by rewrite random_seed_ok by (by rewrite Z.add_0_r)).
  rewrite (outcome_seq _ _ tt) by done.
  rewrite (outcome_seq _ _ tt Htokens).
  rewrite (outcome_seq _ _ tt) by (by rewrite random_seed_ok).
  rewrite (outcome_seq _ _ tt) by done.
  rewrite (outcome_seq _ _ tt (outcome_when _ _)).
  rewrite (outcome_seq _ _ resume Hdiscover).
  by rewrite outcome_bind, Hload.
Qed.


Lemma discover_explicit w a path :
  Args.resume_from_checkpoint a = Some path ->
  discover w a = ret (Some path).
Proof. intros Hp. unfold discover. rewrite Hp. by rewrite andb_false_r. Qed.

Lemma discover_no_directory w a :
  Args.resume_from_checkpoint a = None ->
  fs_exists w (checkpoint_dir a) = false ->
  discover w a = ret None.
Proof.
  intros Hp Hd. unfold discover.
  change (path_join checkpoint_base_path (Args.run_name a))
    with (checkpoint_dir a).
  by rewrite Hp, Hd.
Qed.

End StartupOutcome.

Section MainRuns.

Lemma check_wandb_flags_ok a :
  wandb_flags_ok a -> check_wandb_flags a = ret tt.
Proof.
  unfold wandb_flags_ok, check_wandb_flags. intros [-> | ->]; [done|].
  by rewrite andb_false_r.
Qed.

Lemma add_no_tokens w a : Args.new_tokens a = [] -> add_new_tokens w a = ret tt.
Proof. intros Hn. unfold add_new_tokens. by rewrite Hn. Qed.

(** Without [args.fsdp] a load from a resume point never returns; from
    a record that can be read it stops at the guard of line 172. *)
Lemma load_checkpoint_never_returns w a path model :
  Args.resume_from_checkpoint a = Some path ->
  Args.fsdp a = None ->
  exists e, outcome (load_checkpoint w a model) = inl e.
Proof.
  intros Hpath Hfsdp. unfold load_checkpoint, torch_load, getattr_fsdp.
  rewrite Hpath, Hfsdp.
  destruct (fs_checkpoint w path); destruct (Args.rank a =? 0)%Z; by eexists.
Qed.

Lemma load_checkpoint_fsdp_missing w a path ck model :
  Args.resume_from_checkpoint a = Some path ->
  fs_checkpoint w path = Some ck ->
  Args.fsdp a = None ->
  outcome (load_checkpoint w a model)
  = inl (AttributeError "'Namespace' object has no attribute 'fsdp'").
Proof.
  intros Hpath Hfile Hfsdp. unfold load_checkpoint, torch_load, getattr_fsdp.
  rewrite Hpath, Hfile, Hfsdp. by destruct (Args.rank a =? 0)%Z.
Qed.

Lemma trace_seq {A B} (m : M A) (k : A -> M B) x :
  outcome m = inr x -> trace (bind m k) = trace m ++ trace (k x).
Proof. intros Hm. by rewrite trace_bind, Hm. Qed.

Lemma epoch_driver_outcome resume num_epochs :
  (resume < num_epochs)%Z -> outcome (epoch_driver resume num_epochs) = inr tt.
Proof. intros Hlt. by destruct (epoch_driver_runs _ _ Hlt). Qed.

Lemma print_each_token (tokens : list string) :
  foldr (fun token k =>
           bind (print ("Adding new token " +:+ token +:+ " to tokenizer."))
                (fun _ => k)) (ret tt) tokens
  = (adding_message <$> tokens, inr tt).
Proof. induction tokens as [|t ts IH]; [done|]. cbn [foldr]. by rewrite IH. Qed.

(** The block of lines 109-135 when new tokens are asked for. *)
Lemma add_new_tokens_run w a :
  Args.new_tokens a <> [] ->
  add_new_tokens w a
  = ( (adding_message <$> tokens_to_add w) ++ resize_events w
      ++ (if embedding_located w then [FreezeEmbeddings] else []),
      if embedding_located w then inr tt
      else inl (AttributeError
                  "Could not locate the embedding layer in the language model.") ).
Proof.
  intros Htok. unfold add_new_tokens, resize_events.
  destruct (Args.new_tokens a) as [|t ts]; [done|].
  rewrite print_each_token.
  destruct (length (tokens_to_add w) =? 0)%nat, (embedding_located w);
    cbn; by rewrite ?app_nil_r.
Qed.

End MainRuns.

(** ** Resuming on the namespace of the parser *)

(** C4, on the code.  The guard of the weight load (line 172) reads
    [args.fsdp], an attribute that no argument of the parser defines.
    So, on the namespace that [parse_args] returns, a run that has a
    resume point, given or discovered, never loads the weights: [main]
    ends with an exception, no epoch is trained and nothing is saved.
    When start-up gets as far as the load (wandb flags that pass the
    check, a seed [s] with [0 <= s < 2**32] and [0 <= s + rank < 2**32],
    no new tokens, a record that [torch.load] reads, collaborators
    outside this file that return), the exception is the
    [AttributeError] of [args.fsdp], raised after the record was read
    and before [model.load_state_dict] is called. *)
Theorem resume_stops_at_the_fsdp_guard
    (w : world) (a : Args.t) (path : string) :
  Args.fsdp a = None ->
  outcome (discover w (launched w a)) = inr (Some path) ->
  (exists e, outcome (main w a) = inl e)
  /\ trainings (trace (main w a)) = []
  /\ saves (trace (main w a)) = []
  /\ (forall ck,
        wandb_flags_ok a ->
        seed_ok (Args.seed a) ->
        seed_ok (Args.seed a + env_rank w) ->
        Args.new_tokens a = [] ->
        fs_checkpoint w path = Some ck ->
        outcome (main w a)
        = inl (AttributeError "'Namespace' object has no attribute 'fsdp'")).
Proof.
  intros Hfsdp Hdisc.
  assert (Hstop : exists e, outcome (startup w a) = inl e).
  { destruct (outcome (startup w a)) as [e|r] eqn:Hstart; [by eexists|].
    apply startup_returns in Hstart
      as (resume & ld & total & _ & _ & Hdisc' & Hload & _ & _).
    rewrite Hdisc in Hdisc'. injection Hdisc' as <-.
    destruct (load_checkpoint_never_returns w
                (Args.with_resume (launched w a) (Some path)) path
                (model_state w) eq_refl Hfsdp) as [e He].
    rewrite He in Hload. discriminate. }
  rewrite main_outcome, main_trainings, main_saves.
  destruct Hstop as [e He]. rewrite He.
  split; [by eexists|]. split; [done|]. split; [done|].
  intros ck Hflags Hseed Hseed' Htok Hfile.
  assert (Hguard : outcome (startup w a)
    = inl (AttributeError "'Namespace' object has no attribute 'fsdp'")).
  { apply (startup_stops_at_load w a (Some path)); try done.
    - by rewrite check_wandb_flags_ok.
    - by rewrite add_no_tokens.
    - by apply (load_checkpoint_fsdp_missing _ _ path ck). }
  rewrite He in Hguard. by injection Hguard as ->.
Qed.

Lemma resume_stops_at_the_fsdp_guard_witness :
  outcome (main Sample.machine Cases.ten_epochs)
  = inl (AttributeError "'Namespace' object has no attribute 'fsdp'")
  /\ trainings (trace (main Sample.machine Cases.ten_epochs)) = []
  /\ saves (trace (main Sample.machine Cases.ten_epochs)) = [].
Proof.
  destruct (resume_stops_at_the_fsdp_guard Sample.machine Cases.ten_epochs
              (checkpoint_file Sample.run_dir 7))
    as (_ & Htrain & Hsave & Hout).
  - reflexivity.
  - vm_compute. reflexivity.
  - split; [|split; [exact Htrain|exact Hsave]].
    apply (Hout (Sample.record 7)).
    + by left.
    + unfold seed_ok. cbn. lia.
    + unfold seed_ok. cbn. lia.
    + reflexivity.
    + vm_compute. reflexivity.
Defined.


(** X16.  A global batch of size zero ([batch_size * world_size = 0])
    stops [main] with an exception, at the latest when the total number
    of steps is computed: no epoch is trained and nothing is saved. *)
Theorem main_needs_a_global_batch (w : world) (a : Args.t) :
  (Args.batch_size a * env_world_size w)%Z = 0%Z ->
  (exists e, outcome (main w a) = inl e)
  /\ trainings (trace (main w a)) = []
  /\ saves (trace (main w a)) = [].
Proof.
  intros Hzero. rewrite main_outcome, main_trainings, main_saves.
  destruct (outcome (startup w a)) as [e|r] eqn:Hstart; [eauto|].
  apply startup_returns in Hstart
    as (resume & ld & total & _ & _ & _ & _ & Htotal & _).
  unfold total_training_steps, PyInt.floordiv in Htotal.
  cbn [Args.batch_size Args.world_size Args.with_resume launched
       Args.with_world_info] in Htotal.
  apply Z.eqb_eq in Hzero. by rewrite Hzero in Htotal.
Qed.

Lemma main_needs_a_global_batch_witness :
  (exists e, outcome (main Cases.no_devices Sample.args) = inl e)
  /\ trainings (trace (main Cases.no_devices Sample.args)) = []
  /\ saves (trace (main Cases.no_devices Sample.args)) = [].
Proof. apply main_needs_a_global_batch. reflexivity. Defined.

(** X17.  A first run (wandb flags that pass the check, a seed [s] with
    [0 <= s < 2**32] and [0 <= s + rank < 2**32], no new tokens, no
    resume path, no run directory yet, a global batch that is not zero
    and at least one epoch) ends normally, provided the collaborators
    outside this file return: it trains the epochs
    [0 .. num_epochs - 1] in order, saves each and saves the last one
    twice.  It never reads [args.fsdp]. *)
Theorem main_first_run_trains_all (w : world) (a : Args.t) :
  wandb_flags_ok a ->
  seed_ok (Args.seed a) ->
  seed_ok (Args.seed a + env_rank w) ->
  Args.new_tokens a = [] ->
  Args.resume_from_checkpoint a = None ->
  fs_exists w (checkpoint_dir a) = false ->
  (Args.batch_size a * env_world_size w)%Z <> 0%Z ->
  (0 < Args.num_epochs a)%Z ->
  outcome (main w a) = inr tt
  /\ trainings (trace (main w a)) = PyInt.range 0 (Args.num_epochs a)
  /\ saves (trace (main w a))
     = PyInt.range 0 (Args.num_epochs a) ++ [(Args.num_epochs a - 1)%Z].
Proof.
  intros Hflags Hseed Hseed' Htok Hres Hdir Hbatch Hepochs.
  assert (Hstart : outcome (startup w a) = inr 0%Z).
  { apply (startup_succeeds w a None
             {| resume_from_epoch := 0; loaded_checkpoint := None;
                loaded_model := model_state w |}
             ((Args.train_num_samples a
               / (Args.batch_size a * env_world_size w))
              * Args.num_epochs a)%Z).
    - done.
    - done.
    - by rewrite check_wandb_flags_ok.
    - by rewrite add_no_tokens.
    - by rewrite discover_no_directory.
    - done.
    - unfold total_training_steps, PyInt.floordiv.
      cbn [Args.batch_size Args.world_size Args.with_resume launched
           Args.with_world_info Args.train_num_samples Args.num_epochs].
      apply Z.eqb_neq in Hbatch. by rewrite Hbatch. }
  rewrite main_outcome, main_trainings, main_saves, Hstart.
  split; [by apply epoch_driver_outcome|]. split; [done|].
  unfold final_save. by destruct (Z.ltb_spec 0 (Args.num_epochs a)); [|lia].
Qed.

Lemma main_first_run_trains_all_witness :
  outcome (main Sample.fresh_machine Cases.first_run) = inr tt
  /\ trainings (trace (main Sample.fresh_machine Cases.first_run))
     = PyInt.range 0 3
  /\ saves (trace (main Sample.fresh_machine Cases.first_run))
     = PyInt.range 0 3 ++ [(3 - 1)%Z].
Proof.
  apply (main_first_run_trains_all Sample.fresh_machine Cases.first_run).
  - by left.
  - unfold seed_ok. cbn. lia.
  - unfold seed_ok. cbn. lia.
  - reflexivity.
  - reflexivity.
  - reflexivity.
  - discriminate.
  - reflexivity.
Defined.

(** X19.  With wandb flags that pass the check, a seed [s] with
    [0 <= s < 2**32] and [0 <= s + rank < 2**32], and no new token asked
    for, [main] first sets the offline environment if asked to,
    initialises the device, seeds torch, numpy and [random] with the
    bare seed (the same on every rank) and builds the model; it then
    seeds the three again with [seed + rank], announces its rank, and
    starts wandb only on rank 0 and only if reporting is on. *)
Theorem main_opening_events (w : world) (a : Args.t) :
  wandb_flags_ok a ->
  seed_ok (Args.seed a) ->
  seed_ok (Args.seed a + env_rank w) ->
  Args.new_tokens a = [] ->
  exists rest,
    trace (main w a)
    = offline_events a
      ++ [ InitDistributedDevice;
           TorchManualSeed (Args.seed a); NpRandomSeed (Args.seed a);
           RandomSeed (Args.seed a);
           CreateModelAndTransforms;
           TorchManualSeed (Args.seed a + env_rank w);
           NpRandomSeed (Args.seed a + env_rank w);
           RandomSeed (Args.seed a + env_rank w);
           Print ("Start running training on rank "
                  +:+ PyInt.str (env_rank w) +:+ ".") ]
      ++ wandb_events w a ++ rest.
Proof.
  intros Hflags Hseed Hseed' Htok.
  unfold main, offline_events, wandb_events, env_rank in *.
  rewrite (check_wandb_flags_ok a Hflags), bind_ret.
  rewrite (trace_seq _ _ tt (outcome_when _ _)).
  destruct (world_info_from_env w) as [[lr r] ws]. cbn [fst snd] in *.
  cbn [Args.seed Args.rank Args.with_world_info Args.report_to_wandb].
  rewrite (random_seed_ok (Args.seed a) 0) by (by rewrite Z.add_0_r).
  rewrite (random_seed_ok (Args.seed a) r) by done.
  do 3 (rewrite (trace_seq _ _ tt) by done).
  rewrite add_no_tokens by done. rewrite bind_ret.
  do 2 (rewrite (trace_seq _ _ tt) by done).
  rewrite (trace_seq _ _ tt (outcome_when _ _)).
  eexists. rewrite Z.add_0_r.
  replace (trace (when (Args.offline a) (emit SetOfflineEnv)))
    with (if Args.offline a then [SetOfflineEnv] else [])
    by (by destruct (Args.offline a)).
  replace (trace (when ((r =? 0)%Z && Args.report_to_wandb a) (emit WandbInit)))
    with (if (r =? 0)%Z && Args.report_to_wandb a then [WandbInit] else [])
    by (by destruct (_ && _)).
  reflexivity.
Qed.

Lemma main_opening_events_witness :
  exists rest,
    trace (main Sample.fresh_machine Cases.first_run)
    = offline_events Cases.first_run
      ++ [ InitDistributedDevice;
           TorchManualSeed 42; NpRandomSeed 42; RandomSeed 42;
           CreateModelAndTransforms;
           TorchManualSeed (42 + env_rank Sample.fresh_machine);
           NpRandomSeed (42 + env_rank Sample.fresh_machine);
           RandomSeed (42 + env_rank Sample.fresh_machine);
           Print ("Start running training on rank "
                  +:+ PyInt.str (env_rank Sample.fresh_machine) +:+ ".") ]
      ++ wandb_events Sample.fresh_machine Cases.first_run ++ rest.
Proof.
  apply (main_opening_events Sample.fresh_machine Cases.first_run).
  - by left.
  - unfold seed_ok. cbn. lia.
  - unfold seed_ok. cbn. lia.
  - reflexivity.
Defined.

(** X20.  With wandb flags that pass the check and a seed [s] with
    [0 <= s < 2**32]: when new tokens are asked for and the embedding
    layer of the language model cannot be located, [main] stops with an
    [AttributeError] right after the vocabulary was extended: no
    checkpoint is looked for and nothing is trained. *)
Theorem main_needs_the_embedding_layer (w : world) (a : Args.t) :
  wandb_flags_ok a ->
  seed_ok (Args.seed a) ->
  Args.new_tokens a <> [] ->
  embedding_located w = false ->
  main w a
  = ( offline_events a
      ++ [ InitDistributedDevice;
           TorchManualSeed (Args.seed a); NpRandomSeed (Args.seed a);
           RandomSeed (Args.seed a);
           CreateModelAndTransforms ]
      ++ (adding_message <$> tokens_to_add w) ++ resize_events w,
      inl (AttributeError
             "Could not locate the embedding layer in the language model.") ).
Proof.
  intros Hflags Hseed Htok Hemb. unfold main, offline_events.
  rewrite (check_wandb_flags_ok a Hflags), bind_ret.
  destruct (world_info_from_env w) as [[lr r] ws].
  assert (Hadd : add_new_tokens w (Args.with_world_info a lr r ws)
    = ( (adding_message <$> tokens_to_add w) ++ resize_events w,
        inl (AttributeError
               "Could not locate the embedding layer in the language model.") )).
  { rewrite add_new_tokens_run by done. by rewrite Hemb, app_nil_r. }
  cbn [Args.seed Args.with_world_info].
  rewrite (random_seed_ok (Args.seed a) 0) by (by rewrite Z.add_0_r).
  rewrite Z.add_0_r.
  destruct (Args.offline a); cbn; by rewrite Hadd.
Qed.

Lemma main_needs_the_embedding_layer_witness :
  main Cases.unknown_model Cases.with_new_tokens
  = ( offline_events Cases.with_new_tokens
      ++ [ InitDistributedDevice;
           TorchManualSeed 42; NpRandomSeed 42; RandomSeed 42;
           CreateModelAndTransforms ]
      ++ (adding_message <$> ["<tumor>"]) ++ [ResizeTokenEmbeddings],
      inl (AttributeError
             "Could not locate the embedding layer in the language model.") ).
Proof.
  apply (main_needs_the_embedding_layer Cases.unknown_model
           Cases.with_new_tokens).
  - by left.
  - unfold seed_ok. cbn. lia.
  - discriminate.
  - reflexivity.
Defined.

(** ** Extending the vocabulary *)

Section NewTokenRules.

Context {tokenizer : Type}.
Variable convert_token_to_id : tokenizer -> string -> Z.
Variable unk_token_id : tokenizer -> Z.
Variable add_special_tokens : tokenizer -> list string -> tokenizer.

Lemma collect_unknown_filter tok (tokens : list string) acc :
  collect_unknown unk_token_id tok (zip tokens (convert_tokens_to_ids convert_token_to_id tok tokens))
    acc
  = ( adding_message <$> unknown_tokens convert_token_to_id unk_token_id tok tokens,
      inr (acc ++ unknown_tokens convert_token_to_id unk_token_id tok tokens) ).
Proof.
  revert acc. induction tokens as [|t tokens IH]; intros acc.
  - cbn. by rewrite app_nil_r.
  - unfold convert_tokens_to_ids, unknown_tokens in *.
    cbn [fmap list_fmap zip zip_with collect_unknown List.filter].
    destruct (_ =? _)%Z.
    + rewrite IH. cbn. by rewrite <- app_assoc.
    + by rewrite IH.
Qed.

Lemma extend_vocabulary_shape tok (new_tokens : list string) :
  extend_vocabulary convert_token_to_id unk_token_id add_special_tokens
    tok new_tokens
  = match unknown_tokens convert_token_to_id unk_token_id tok new_tokens with
    | [] =>
        ( [], inr (tok, convert_tokens_to_ids convert_token_to_id tok new_tokens) )
    | _ :: _ =>
        ( (adding_message <$> unknown_tokens convert_token_to_id unk_token_id tok new_tokens) ++ [ResizeTokenEmbeddings],
          inr ( add_special_tokens tok (unknown_tokens convert_token_to_id unk_token_id tok new_tokens),
                convert_tokens_to_ids convert_token_to_id
                  (add_special_tokens tok (unknown_tokens convert_token_to_id unk_token_id tok new_tokens))
                  (unknown_tokens convert_token_to_id unk_token_id tok new_tokens) ) )
    end.
Proof.
  unfold extend_vocabulary. rewrite collect_unknown_filter. cbn [app].
  destruct (unknown_tokens _ _ tok new_tokens) as [|t ts]; [done|].
  reflexivity.
Qed.

Lemma filter_shorter {A} (f : A -> bool) (l : list A) x :
  In x l -> f x = false -> (length (List.filter f l) < length l)%nat.
Proof.
  induction l as [|y l IH]; [done|]. intros [->|Hin] Hx; cbn.
  - rewrite Hx. pose proof (List.filter_length_le f l). lia.
  - specialize (IH Hin Hx). destruct (f y); cbn; lia.
Qed.

End NewTokenRules.

(** In [main] the block is the extension of the vocabulary followed by
    the freezing of the embeddings. *)
Lemma add_new_tokens_extends
    {tokenizer : Type}
    (convert_token_to_id : tokenizer -> string -> Z)
    (unk_token_id : tokenizer -> Z)
    (add_special_tokens : tokenizer -> list string -> tokenizer)
    (tok : tokenizer) (w : world) (a : Args.t) :
  Args.new_tokens a <> [] ->
  tokens_to_add w
  = unknown_tokens convert_token_to_id unk_token_id tok (Args.new_tokens a) ->
  embedding_located w = true ->
  trace (add_new_tokens w a)
  = trace (extend_vocabulary convert_token_to_id unk_token_id
             add_special_tokens tok (Args.new_tokens a))
    ++ [FreezeEmbeddings].
Proof.
  intros Htok Hunknown Hemb. rewrite add_new_tokens_run by done.
  rewrite extend_vocabulary_shape, Hemb. unfold resize_events.
  rewrite Hunknown.
  destruct (unknown_tokens _ _ tok (Args.new_tokens a)) as [|t ts];
    [reflexivity|].
  unfold trace. cbn [fst length Nat.eqb]. by rewrite <- app_assoc.
Qed.

(** X21.  For any tokenizer, the tokens that the block adds are exactly
    the requested tokens that the tokenizer maps to its unknown token,
    in the order of the request, one line being printed for each.  If
    there is none, the tokenizer is left alone and the ids are those of
    all requested tokens; otherwise the embeddings are resized once and
    the ids that remain are those of the added tokens only, looked up in
    the extended tokenizer. *)
Theorem extend_vocabulary_adds_the_unknown
    {tokenizer : Type}
    (convert_token_to_id : tokenizer -> string -> Z)
    (unk_token_id : tokenizer -> Z)
    (add_special_tokens : tokenizer -> list string -> tokenizer)
    (tok : tokenizer) (new_tokens : list string) :
  let added := unknown_tokens convert_token_to_id unk_token_id tok new_tokens in
  extend_vocabulary convert_token_to_id unk_token_id add_special_tokens
    tok new_tokens
  = match added with
    | [] =>
        ( [], inr (tok, convert_tokens_to_ids convert_token_to_id tok new_tokens) )
    | _ :: _ =>
        ( (adding_message <$> added) ++ [ResizeTokenEmbeddings],
          inr ( add_special_tokens tok added,
                convert_tokens_to_ids convert_token_to_id
                  (add_special_tokens tok added) added ) )
    end.
Proof. intros added. apply extend_vocabulary_shape. Qed.

(** X22.  As soon as one requested token is unknown to the tokenizer, a
    requested token that the tokenizer already knows is no longer among
    the tokens whose ids the block keeps: the list of ids is shorter than
    the request. *)
Theorem known_tokens_are_dropped
    {tokenizer : Type}
    (convert_token_to_id : tokenizer -> string -> Z)
    (unk_token_id : tokenizer -> Z)
    (add_special_tokens : tokenizer -> list string -> tokenizer)
    (tok : tokenizer) (new_tokens : list string) (known new : string) :
  known ∈ new_tokens ->
  convert_token_to_id tok known <> unk_token_id tok ->
  new ∈ new_tokens ->
  convert_token_to_id tok new = unk_token_id tok ->
  exists tok' ids,
    outcome (extend_vocabulary convert_token_to_id unk_token_id
               add_special_tokens tok new_tokens) = inr (tok', ids)
    /\ ids = convert_tokens_to_ids convert_token_to_id tok'
               (unknown_tokens convert_token_to_id unk_token_id tok new_tokens)
    /\ (known ∉ unknown_tokens convert_token_to_id unk_token_id tok new_tokens)
    /\ (length ids < length new_tokens)%nat.
Proof.
  intros Hknown Hk Hnew Hn.
  pose proof (extend_vocabulary_shape convert_token_to_id unk_token_id
                add_special_tokens tok new_tokens) as Hext.
  set (added := unknown_tokens convert_token_to_id unk_token_id tok new_tokens)
    in *.
  assert (Hin : new ∈ added).
  { apply list_elem_of_In, filter_In. split; [by apply list_elem_of_In|].
    by apply Z.eqb_eq. }
  assert (Hout : known ∉ added).
  { intros [_ Hc]%list_elem_of_In%filter_In. by apply Z.eqb_eq in Hc. }
  destruct added as [|t ts] eqn:Hadded; [by apply elem_of_nil in Hin|].
  rewrite Hext. eexists _, _. split; [reflexivity|]. split; [done|].
  split; [done|].
  unfold convert_tokens_to_ids. rewrite length_fmap, <- Hadded.
  apply filter_shorter with (x := known); [by apply list_elem_of_In|].
  by apply Z.eqb_neq.
Qed.

Lemma known_tokens_are_dropped_witness :
  exists tok' ids,
    outcome (extend_vocabulary Cases.vocab_id Cases.vocab_unk Cases.vocab_add
               Cases.vocabulary ["<image>"; "<tumor>"]) = inr (tok', ids)
    /\ ids = convert_tokens_to_ids Cases.vocab_id tok'
               (unknown_tokens Cases.vocab_id Cases.vocab_unk
                  Cases.vocabulary ["<image>"; "<tumor>"])
    /\ ("<image>" ∉ unknown_tokens Cases.vocab_id Cases.vocab_unk
                      Cases.vocabulary ["<image>"; "<tumor>"])
    /\ (length ids < length ["<image>"; "<tumor>"])%nat.
Proof.
  apply (known_tokens_are_dropped Cases.vocab_id Cases.vocab_unk
           Cases.vocab_add Cases.vocabulary _ "<image>" "<tumor>").
  - apply list_elem_of_here.
  - discriminate.
  - apply list_elem_of_further, list_elem_of_here.
  - reflexivity.
Defined.

(** ** Restoring the optimizer *)

Section OptimizerRestore.

Lemma restore_groups (gs : list param_group) (ss : list saved_group) :
  Forall2 (fun g s => length (params g) = length (sg_params s)) gs ss ->
  existsb group_size_differs (zip gs ss) = false
  /\ params <$> zip_with restore_group gs ss = params <$> gs
  /\ lr <$> zip_with restore_group gs ss = sg_lr <$> ss
  /\ weight_decay <$> zip_with restore_group gs ss = sg_weight_decay <$> ss.
Proof.
  induction 1 as [|g s gs ss Hgs _ (IH1 & IH2 & IH3 & IH4)]; [done|].
  cbn [zip zip_with existsb fmap list_fmap] in *.
  unfold group_size_differs at 1. cbn [fst snd].
  apply Nat.eqb_eq in Hgs. rewrite Hgs, IH1. cbn [negb orb].
  by rewrite IH2, IH3, IH4.
Qed.

End OptimizerRestore.

(** X23.  When the saved optimizer state has as many groups as the
    optimizer, each with as many parameters, it is restored without a
    message: the groups keep their parameters but take their learning
    rate and weight decay from the checkpoint, not from the command
    line, and the saved accumulators become the optimizer's state. *)
Theorem optimizer_state_is_restored
    (ck : checkpoint) (osd : optimizer_state) (o : optimizer) :
  optimizer_state_dict ck = Some osd ->
  Forall2 (fun g s => length (params g) = length (sg_params s))
    (param_groups o) (osd_param_groups osd) ->
  exists o',
    load_optimizer_checkpoint (Some ck) o = ([], inr o')
    /\ params <$> param_groups o' = params <$> param_groups o
    /\ lr <$> param_groups o' = sg_lr <$> osd_param_groups osd
    /\ weight_decay <$> param_groups o'
       = sg_weight_decay <$> osd_param_groups osd
    /\ opt_state o' = osd_state osd.
Proof.
  intros Hosd Hsizes.
  destruct (restore_groups _ _ Hsizes) as (Hno & Hp & Hlr & Hwd).
  unfold load_optimizer_checkpoint, optimizer_load_state_dict.
  rewrite Hosd, Hno.
  assert ((length (param_groups o) =? length (osd_param_groups osd))%nat = true)
    as -> by (apply Nat.eqb_eq; by eapply Forall2_length).
  eexists. split; [reflexivity|]. by cbn [param_groups opt_state].
Qed.

Lemma optimizer_state_is_restored_witness :
  exists o',
    load_optimizer_checkpoint (Some Cases.matching_record)
      (build_optimizer Sample.machine Sample.args) = ([], inr o')
    /\ params <$> param_groups o'
       = params <$> param_groups (build_optimizer Sample.machine Sample.args)
    /\ lr <$> param_groups o' = sg_lr <$> osd_param_groups Cases.matching_state
    /\ weight_decay <$> param_groups o'
       = sg_weight_decay <$> osd_param_groups Cases.matching_state
    /\ opt_state o' = osd_state Cases.matching_state.
Proof.
  apply (optimizer_state_is_restored Cases.matching_record
           Cases.matching_state (build_optimizer Sample.machine Sample.args)).
  - reflexivity.
  - vm_compute. repeat constructor.
Defined.
